(** * Matplotlib-Examplar: the tabular filter / aggregate pipeline of the
      exam scripts (may2022.py, may2023.py, may2024.py)

    The three scripts load one table each and answer menu requests by
    filtering rows on categorical keys and reducing numeric cells.  The
    development embeds those functions as Rocq functions over an explicit
    table value (the scripts read a module-level [df]).

    Numbers.  Cells that the scripts convert with [astype(float)] are
    modelled as exact rationals [Q]; rounding of binary floating point is
    outside the model.  Equality of numbers is [Qeq] ([==]).

    Failure.  A Python call either returns or raises; [outcome] records
    which.  Python's [None] is [option]'s [None]. *)

From Stdlib Require Import ZArith QArith Qminmax Lia Lqa.
From Stdlib Require Import Reals Qreals Lra.
From stdpp Require Import base list strings sorting.

Open Scope Q_scope.

(** ** Outcomes of a Python call

    numpy reports the quotient 0.0 / 0 by a RuntimeWarning and goes on with
    NaN.  NaN is no number of the model: a call that would produce it is
    cut short with [DivideByZero]. *)

Inductive exn : Set :=
  | AttributeError   (* attribute lookup failed *)
  | IndexError       (* pandas: a column has already been selected *)
  | ValueError       (* numpy: zero-size array to a reduction without identity *)
  | TypeError        (* None used as a frame *)
  | DivideByZero.    (* numpy: 0.0 / 0, reported as a RuntimeWarning and NaN *)

Inductive outcome (A : Type) : Type :=
  | Ok (a : A)
  | Raise (e : exn).
Arguments Ok {A} a.
Arguments Raise {A} e.

#[global] Instance outcome_ret : MRet outcome := fun A a => Ok a.

#[global] Instance outcome_bind : MBind outcome := fun A B k m =>
  match m with
  | Ok a => k a
  | Raise e => Raise e
  end.

Definition returns {A} (m : outcome A) : Prop := ∃ a, m = Ok a.

(** ** numpy reductions over a one-dimensional array *)

(** [np.sum]: the empty sum is 0. *)
Definition np_sum (a : list Q) : Q := foldr Qplus 0 a.

(** [len(a)] as a number. *)
Definition len (a : list Q) : Q := inject_Z (Z.of_nat (length a)).

(** [np.mean]: sum over count.  On an empty array numpy divides 0.0 by 0,
    warns and yields NaN, which is no number of the model: the call is
    recorded as [DivideByZero]. *)
Definition np_mean (a : list Q) : outcome Q :=
  match a with
  | [] => Raise DivideByZero
  | _ :: _ => Ok (np_sum a / len a)
  end.

(** [np.max], [np.min]: raise [ValueError] on an empty array. *)
Definition np_max (a : list Q) : outcome Q :=
  match a with
  | [] => Raise ValueError
  | x :: t => Ok (foldl Qmax x t)
  end.

Definition np_min (a : list Q) : outcome Q :=
  match a with
  | [] => Raise ValueError
  | x :: t => Ok (foldl Qmin x t)
  end.

(** A non-negative real known by its square: [Sqrt v] is the square root of
    [v].  [np.std] ends in a square root, which leaves [Q]. *)
Inductive surd : Set := Sqrt (radicand : Q).

Definition radicand (s : surd) : Q := let 'Sqrt v := s in v.

Definition surd_R (s : surd) : R := sqrt (Q2R (radicand s)).

(** [np.std] with its default [ddof=0]: the square root of the mean of the
    squared deviations from the mean. *)
Definition np_std (a : list Q) : outcome surd :=
  m ← np_mean a;
  v ← np_mean (fmap (fun x => (x - m) * (x - m)) a);
  Ok (Sqrt v).

(** ** Statistics: the dictionary built by both [calculate_*_stats] *)

Record Statistics : Type := mkStatistics {
  total : Q;
  average : Q;
  max : Q;
  min : Q;
  std_dev : surd;
  count : nat
}.


(** What the summaries use of the answer of [calculate_income_stats] for an
    income sequence: absent for the empty sequence, otherwise its sum as
    total and its length as count. *)
Definition stats_of (income : list Q) (stats : option Statistics) : Prop :=
  match stats with
  | None => income = []
  | Some st => income ≠ [] ∧ total st = np_sum income ∧ count st = length income
  end.

(** The dictionary display shared by [calculate_income_stats] and
    [calculate_menu_stats]; Python evaluates the entries in this order. *)
Definition stats_dict (data : list Q) : outcome Statistics :=
  let t := np_sum data in
  a ← np_mean data;
  mx ← np_max data;
  mn ← np_min data;
  sd ← np_std data;
  Ok (mkStatistics t a mx mn sd (length data)).

(** ** pandas primitives *)

(** [Series.unique()]: one scan in row order with a table of values already
    seen; a value is emitted the first time it is met. *)
Fixpoint unique_from {A} `{EqDecision A} (seen l : list A) : list A :=
  match l with
  | [] => []
  | x :: t =>
      if decide (x ∈ seen) then unique_from seen t
      else x :: unique_from (x :: seen) t
  end.

Definition unique {A} `{EqDecision A} (l : list A) : list A :=
  unique_from [] l.

(** Position of the first occurrence of [x] in [l]. *)
Fixpoint first_index {A} `{EqDecision A} (x : A) (l : list A) : option nat :=
  match l with
  | [] => None
  | y :: t => if decide (y = x) then Some 0%nat else S <$> first_index x t
  end.

(** Iteration over [frame.groupby(key)]: the keys in ascending order (pandas
    sorts group keys by default), each with its rows in frame order. *)
Definition groupby {Row} (key : Row → string) (frame : list Row)
    : list (string * list Row) :=
  fmap (λ k, (k, filter (λ r, key r = k) frame))
      (merge_sort String.le (unique (fmap key frame))).

(** Sum of the rows of a numeric block, column by column
    ([values.sum(axis=0)]). *)
Definition column_sums (width : nat) (block : list (list Q)) : list Q :=
  foldr (zip_with Qplus) (replicate width 0) block.

(** [frame.mean()] of a numeric block: column sums over the number of rows;
    with no row the quotient is 0.0 / 0. *)
Definition frame_mean (width : nat) (block : list (list Q)) : outcome (list Q) :=
  match block with
  | [] => Raise DivideByZero
  | _ :: _ =>
      Ok (fmap (λ s, s / inject_Z (Z.of_nat (length block)))
              (column_sums width block))
  end.

(** Python's [a[start:stop]] on a sequence, for integers of either sign. *)
Definition py_slice {A} (a : list A) (start stop : Z) : list A :=
  let n := Z.of_nat (length a) in
  let clamp i := if (i <? 0)%Z then Z.max (i + n) 0 else Z.min i n in
  let lo := clamp start in
  let hi := clamp stop in
  take (Z.to_nat (hi - lo)) (drop (Z.to_nat lo) a).

(** [all_ok]: run the calls of a list in order, stop at the first failure. *)
Fixpoint all_ok {A} (ms : list (outcome A)) : outcome (list A) :=
  match ms with
  | [] => Ok []
  | m :: rest => a ← m; l ← all_ok rest; Ok (a :: l)
  end.

(** The entries of a list that are present. *)
Definition somes {A} (l : list (option A)) : list A := omap (λ e, e) l.

(** Key of the first maximal value ([Series.idxmax()]), given a first
    candidate. *)
Fixpoint idxmax_from (best : string * Q) (s : list (string * Q)) : string * Q :=
  match s with
  | [] => best
  | (k, v) :: rest =>
      if Qlt_le_dec (snd best) v then idxmax_from (k, v) rest
      else idxmax_from best rest
  end.




(** Python's [max(items, key=key)] and [min(items, key=key)]: the first item
    whose key is greatest (least); [ValueError] on an empty sequence. *)
Fixpoint max_from {A} (key : A → Q) (best : A) (items : list A) : A :=
  match items with
  | [] => best
  | x :: rest =>
      if Qlt_le_dec (key best) (key x) then max_from key x rest
      else max_from key best rest
  end.

Fixpoint min_from {A} (key : A → Q) (best : A) (items : list A) : A :=
  match items with
  | [] => best
  | x :: rest =>
      if Qlt_le_dec (key x) (key best) then min_from key x rest
      else min_from key best rest
  end.

Definition py_max {A} (key : A → Q) (items : list A) : outcome A :=
  match items with
  | [] => Raise ValueError
  | x :: rest => Ok (max_from key x rest)
  end.

Definition py_min {A} (key : A → Q) (items : list A) : outcome A :=
  match items with
  | [] => Raise ValueError
  | x :: rest => Ok (min_from key x rest)
  end.

(** [np.poly1d(z)(x)]: the polynomial with coefficients [z], highest degree
    first, at [x]. *)
Definition poly1d (z : list Q) (x : Q) : Q :=
  foldl (λ acc c, acc * x + c) 0 z.

(** [np.arange(n)] as numbers. *)
Definition arange (n : nat) : list Q :=
  fmap (λ i : nat, inject_Z (Z.of_nat i)) (seq 0 n).

(** * may2022.py: property value increases by region *)

Module May2022.

(** One record of Task_4a.csv: Region Code, Region, Property Type, Rooms,
    then one numeric cell per month. *)
Record Row : Type := mkRow {
  Region_Code : string;
  Region : string;
  Property_Type : string;
  Rooms : Z;
  months : list Q
}.

(** The loaded frame [df]: the month labels are [df.columns[4:]]. *)
Record Table : Type := mkTable {
  month_labels : list string;
  rows : list Row
}.

Definition columns (df : Table) : list string :=
  ["Region Code"; "Region"; "Property Type"; "Rooms"] ++ month_labels df.

(** Every row has one cell per month column. *)
Definition wf (df : Table) : Prop :=
  Forall (λ r, length (months r) = length (month_labels df)) (rows df).

Definition get_available_regions (df : Table) : list string :=
  unique (fmap Region (rows df)).

Definition get_region_data (df : Table) (region_name : string)
    : option (list Row) :=
  if decide (region_name ∈ Region <$> rows df) then
    Some (filter (λ r, Region r = region_name) (rows df))
  else None.

(** [df.groupby('Region')] and what pandas lets one do with it.  Attribute
    lookup on a DataFrameGroupBy falls back to the columns of the grouped
    frame and to nothing else: [iloc] is an indexer of DataFrame, not of the
    group-by object. *)
Record DataFrameGroupBy : Type := mkGroupBy {
  gb_obj : Table;
  gb_key : string
}.

(** A group-by object with one column selected. *)
Record SeriesGroupBy : Type := mkSeriesGroupBy {
  sgb_parent : DataFrameGroupBy;
  sgb_selection : string
}.

Definition groupby_getattr (g : DataFrameGroupBy) (attr : string)
    : outcome SeriesGroupBy :=
  if decide (attr ∈ columns (gb_obj g)) then Ok (mkSeriesGroupBy g attr)
  else Raise AttributeError.

(** Indexing a group-by that already has a selection is refused by pandas
    ("Column(s) ... already selected"). *)
Definition selected_getitem (s : SeriesGroupBy) : outcome (list (list Q)) :=
  Raise IndexError.

(** [series.groupby(keys).mean()]: per key, in ascending key order, the mean
    of the values whose key it is. *)
Definition group_mean (keys : list string) (values : list Q)
    : outcome (list (string * Q)) :=
  all_ok (fmap (λ kg, m ← np_mean (fmap snd (snd kg)); Ok (fst kg, m))
              (groupby fst (zip keys values))).

Definition find_highest_performing_region (df : Table) : outcome (string * Q) :=
  by_region ← groupby_getattr (mkGroupBy df "Region") "iloc";
  block ← selected_getitem by_region;                   (* [:, 4:] *)
  row_means ← all_ok (fmap np_mean block);               (* .mean(axis=1) *)
  region_means ← group_mean (fmap Region (rows df)) row_means;
  match region_means with
  | [] => Raise ValueError                              (* idxmax of nothing *)
  | first :: rest => Ok (idxmax_from first rest)
  end.

Definition get_property_types_in_region (df : Table) (region_name : string)
    : list string :=
  match get_region_data df region_name with
  | None => []
  | Some region_data => unique (fmap Property_Type region_data)
  end.

Definition get_room_sizes_for_property (df : Table)
    (region_name property_type : string) : list Z :=
  match get_region_data df region_name with
  | None => []
  | Some region_data =>
      let property_data :=
        filter (λ r, Property_Type r = property_type) region_data in
      let rooms := unique (fmap Rooms property_data) in
      merge_sort Z.le rooms
  end.

Definition get_time_series_data (df : Table)
    (region_name property_type : string) (rooms : Z)
    : option (list string * list Q) :=
  match get_region_data df region_name with
  | None => None
  | Some region_data =>
      let filtered :=
        filter (λ r, Property_Type r = property_type ∧ Rooms r = rooms)
               region_data in
      match filtered with
      | [] => None
      | first :: _ => Some (month_labels df, months first)
      end
  end.

(** [plot_region_comparison]: the value is the sequence of lines handed to
    [ax.plot], one (label, x, y) per property type; drawing is not modelled.
    [None] is the "not found" return. *)
Definition plot_region_comparison (df : Table) (region_name : string)
    : outcome (option (list (string * list string * list Q))) :=
  match get_region_data df region_name with
  | None => Ok None
  | Some region_data =>
      lines ← all_ok
        (fmap (λ pg : string * list Row,
                avg_values ← frame_mean (length (month_labels df))
                                        (fmap months (snd pg));
                Ok (fst pg, month_labels df, avg_values))
             (groupby Property_Type region_data));
      Ok (Some lines)
  end.




End May2022.

(** * may2023.py: menu item sales by service *)

Module May2023.

(** One record of Task4a_data.csv: Menu Item, Service, then one numeric cell
    per date. *)
Record Row : Type := mkRow {
  Menu_Item : string;
  Service : string;
  sales : list Q
}.

(** The loaded frame [df]: the date labels are [df.columns[2:]]. *)
Record Table : Type := mkTable {
  date_labels : list string;
  rows : list Row
}.

Definition wf (df : Table) : Prop :=
  Forall (λ r, length (sales r) = length (date_labels df)) (rows df).

Definition get_available_menu_items (df : Table) : list string :=
  unique (fmap Menu_Item (rows df)).

Definition get_available_services (df : Table) : list string :=
  unique (fmap Service (rows df)).

Definition get_menu_item_data (df : Table) (menu_item : string)
    (service : option string) : option (list Row) :=
  if decide (menu_item ∈ Menu_Item <$> rows df) then
    let filtered_data := filter (λ r, Menu_Item r = menu_item) (rows df) in
    match service with
    | Some s =>
        if decide (s ∈ Service <$> rows df) then
          Some (filter (λ r, Service r = s) filtered_data)
        else None
    | None => Some filtered_data
    end
  else None.

(** The pair [(None, None)] is [None]; otherwise the date labels and the
    cells of row 0 of the selection ([data.iloc[0, 2:]]). *)
Definition get_sales_time_series (df : Table) (menu_item : string)
    (service : option string) : option (list string * list Q) :=
  match get_menu_item_data df menu_item service with
  | None => None
  | Some [] => None
  | Some (first :: _) => Some (date_labels df, sales first)
  end.

Definition calculate_menu_stats (df : Table) (menu_item : string)
    (service : option string) : outcome (option Statistics) :=
  match get_sales_time_series df menu_item service with
  | None => Ok None
  | Some (_, sales) => stats ← stats_dict sales; Ok (Some stats)
  end.

(** The metric names both search functions understand. *)
Inductive metric : Set := Total | Average | Max.

(** [stats[metric]]. *)
Definition stats_get (st : Statistics) (m : metric) : Q :=
  match m with
  | Total => total st
  | Average => average st
  | Max => max st
  end.

(** The [for item in menu_items] loop of [find_highest_performing_item],
    with the two loop variables it updates. *)
Fixpoint highest_item_loop (df : Table) (service : option string)
    (m : metric) (menu_items : list string)
    (best_item : option string) (best_value : Q)
    : outcome (option string * Q) :=
  match menu_items with
  | [] => Ok (best_item, best_value)
  | item :: rest =>
      stats ← calculate_menu_stats df item service;
      match stats with
      | None => highest_item_loop df service m rest best_item best_value
      | Some st =>
          let value := stats_get st m in
          if Qlt_le_dec best_value value
          then highest_item_loop df service m rest (Some item) value
          else highest_item_loop df service m rest best_item best_value
      end
  end.

Definition find_highest_performing_item (df : Table)
    (service : option string) (m : metric) : outcome (option string * Q) :=
  highest_item_loop df service m (get_available_menu_items df) None (-1).


(** The value a period is judged by in [find_best_performer_in_period]. *)
Definition period_value (m : metric) (period_sales : list Q) : outcome Q :=
  match m with
  | Total => Ok (np_sum period_sales)
  | Average => np_mean period_sales
  | Max => np_max period_sales
  end.

Fixpoint best_period_loop (df : Table) (start_idx end_idx : Z)
    (service : option string) (m : metric) (menu_items : list string)
    (best_item : option string) (best_value : Q)
    : outcome (option string * Q) :=
  match menu_items with
  | [] => Ok (best_item, best_value)
  | item :: rest =>
      match get_sales_time_series df item service with
      | None =>
          best_period_loop df start_idx end_idx service m rest
                           best_item best_value
      | Some (_, sales) =>
          let period_sales := py_slice sales start_idx (end_idx + 1) in
          value ← period_value m period_sales;
          if Qlt_le_dec best_value value
          then best_period_loop df start_idx end_idx service m rest
                                (Some item) value
          else best_period_loop df start_idx end_idx service m rest
                                best_item best_value
      end
  end.

Definition find_best_performer_in_period (df : Table) (start_idx end_idx : Z)
    (service : option string) (m : metric) : outcome (option string * Q) :=
  best_period_loop df start_idx end_idx service m
                   (get_available_menu_items df) None (-1).



(** [plot_lunch_dinner_comparison]: the value is what is handed to the two
    [ax.plot] calls, the x axis and the lunch and dinner series; axis
    styling is not modelled.  [None] is the "data not available" return. *)
Definition plot_lunch_dinner_comparison (df : Table) (menu_item : string)
    : option (list Q * list Q * list Q) :=
  match get_sales_time_series df menu_item (Some "Lunch"),
        get_sales_time_series df menu_item (Some "Dinner") with
  | Some (lunch_dates, lunch_sales), Some (_, dinner_sales) =>
      Some (arange (length lunch_dates), lunch_sales, dinner_sales)
  | _, _ => None
  end.

(** [plot_menu_items_comparison]: the value is the sequence of lines handed
    to [ax.plot], each the x axis, the series, the label and the position of
    its colour in the list of ten colours; axis styling is not modelled. *)
Definition plot_menu_items_comparison (df : Table) (service : option string)
    : outcome (list (list Q * list Q * string * nat)) :=
  let menu_items := get_available_menu_items df in
  match menu_items with
  | [] => Raise IndexError                       (* menu_items[0] *)
  | _ :: _ =>
      let x_numeric := arange (length (date_labels df)) in
      Ok (omap (λ p : nat * string,
                  match get_sales_time_series df p.2 service with
                  | Some (_, sales) => Some (x_numeric, sales, p.2, p.1 `mod` 10)%nat
                  | None => None
                  end)
               (zip (seq 0 (length menu_items)) menu_items))
  end.

End May2023.

(** * may2024.py: daily income by source, payment type and day *)

Module May2024.

(** One record of Task4a_data.csv: Day, Pay Type, then one numeric cell per
    income source. *)
Record Row : Type := mkRow {
  Day : string;
  Pay_Type : string;
  income : list Q
}.

(** The loaded frame [df]: the income sources are [df.columns[2:]]. *)
Record Table : Type := mkTable {
  sources : list string;
  rows : list Row
}.

Definition wf (df : Table) : Prop :=
  Forall (λ r, length (income r) = length (sources df)) (rows df).

Definition get_available_sources (df : Table) : list string := sources df.

Definition get_available_payment_types (df : Table) : list string :=
  unique (fmap Pay_Type (rows df)).

Definition week_order : list string :=
  ["Monday"; "Tuesday"; "Wednesday"; "Thursday"; "Friday"; "Saturday";
   "Sunday"].

Definition get_available_days (df : Table) : list string :=
  let days := unique (fmap Day (rows df)) in
  filter (λ d, d ∈ days) week_order.

Definition get_payment_type_data (df : Table) (pay_type : string)
    : option (list Row) :=
  if decide (pay_type ∈ get_available_payment_types df) then
    Some (filter (λ r, Pay_Type r = pay_type) (rows df))
  else None.

Definition get_day_data (df : Table) (day : string) : option (list Row) :=
  if decide (day ∈ get_available_days df) then
    Some (filter (λ r, Day r = day) (rows df))
  else None.

(** [data[source].values]: the cells of the column named [source].  Every
    caller checks first that [source] is one of the sources. *)
Definition column (df : Table) (source : string) (data : list Row) : list Q :=
  match first_index source (sources df) with
  | Some j => fmap (λ r, nth j (income r) 0) data
  | None => []
  end.

Definition get_source_income_data (df : Table) (source : string)
    : option (list Q) :=
  if decide (source ∈ get_available_sources df) then
    Some (column df source (rows df))
  else None.

Definition calculate_income_stats (data : option (list Q))
    : outcome (option Statistics) :=
  match data with
  | None => Ok None
  | Some [] => Ok None
  | Some (x :: t) => stats ← stats_dict (x :: t); Ok (Some stats)
  end.

(** [data[get_available_sources()].sum(axis=1)]: per row, the sum over all
    sources. *)
Definition row_totals (data : list Row) : list Q :=
  fmap (λ r, np_sum (income r)) data.

(** The body of the [for day in days] loop of [calculate_by_day_of_week];
    [None] is [continue], otherwise the entry stored under [results[day]]. *)
Definition day_entry (df : Table) (source pay_type : option string)
    (day : string) : outcome (option (string * option Statistics)) :=
  data ← match get_day_data df day with
         | Some data => Ok data
         | None => Raise TypeError
         end;
  let data :=
    match pay_type with
    | Some p => filter (λ r, Pay_Type r = p) data
    | None => data
    end in
  match source with
  | Some s =>
      if decide (s ∈ get_available_sources df) then
        stats ← calculate_income_stats (Some (column df s data));
        Ok (Some (day, stats))
      else Ok None
  | None =>
      stats ← calculate_income_stats (Some (row_totals data));
      Ok (Some (day, stats))
  end.

(** The dictionary [results], as its items in insertion order. *)
Definition calculate_by_day_of_week (df : Table)
    (source pay_type : option string)
    : outcome (list (string * option Statistics)) :=
  entries ← all_ok (fmap (day_entry df source pay_type) (get_available_days df));
  Ok (somes entries).

(** The income sequence that [calculate_by_payment_type] and
    [calculate_by_day_of_week] reduce for a selection of rows: the column of
    the source, or the row totals when no source is given. *)
Definition income_of (df : Table) (source : option string) (data : list Row)
    : list Q :=
  match source with
  | Some s => column df s data
  | None => row_totals data
  end.

(** A source argument the loops accept: none, or one of the sources. *)
Definition source_ok (df : Table) (source : option string) : Prop :=
  match source with
  | Some s => s ∈ get_available_sources df
  | None => True
  end.

(** The rows a day's statistics are computed from. *)
Definition rows_of_day (df : Table) (pay_type : option string) (day : string)
    : list Row :=
  let data := filter (λ r, Day r = day) (rows df) in
  match pay_type with
  | Some p => filter (λ r, Pay_Type r = p) data
  | None => data
  end.

(** The body of the [for pay_type in payment_types] loop of
    [calculate_by_payment_type]; [None] is [continue]. *)
Definition payment_entry (df : Table) (source : option string)
    (pay_type : string) : outcome (option (string * option Statistics)) :=
  data ← match get_payment_type_data df pay_type with
         | Some data => Ok data
         | None => Raise TypeError
         end;
  match source with
  | Some s =>
      if decide (s ∈ get_available_sources df) then
        stats ← calculate_income_stats (Some (column df s data));
        Ok (Some (pay_type, stats))
      else Ok None
  | None =>
      stats ← calculate_income_stats (Some (row_totals data));
      Ok (Some (pay_type, stats))
  end.

Definition calculate_by_payment_type (df : Table) (source : option string)
    : outcome (list (string * option Statistics)) :=
  entries ← all_ok (fmap (payment_entry df source)
                         (get_available_payment_types df));
  Ok (somes entries).

(** [results[key]['total']]: [None] has no entries. *)
Definition total_of (stats : option Statistics) : outcome Q :=
  match stats with
  | Some st => Ok (total st)
  | None => Raise TypeError
  end.


(** The key of [max] and [min] in [display_day_of_week_analysis]:
    [x[1]['total'] if x[1] else 0]. *)
Definition total_or_zero (entry : string * option Statistics) : Q :=
  match entry.2 with
  | Some st => total st
  | None => 0
  end.

(** The summary of [display_day_of_week_analysis]: best day and its total,
    worst day and its total. *)
Definition display_day_of_week_analysis (df : Table)
    (source pay_type : option string) : outcome (string * Q * (string * Q)) :=
  results ← calculate_by_day_of_week df source pay_type;
  best_day ← py_max total_or_zero results;
  worst_day ← py_min total_or_zero results;
  best_total ← total_of best_day.2;
  worst_total ← total_of worst_day.2;
  Ok (best_day.1, best_total, (worst_day.1, worst_total)).


(** [plot_payment_type_comparison]: the pair handed to [ax.bar]. *)
Definition plot_payment_type_comparison (df : Table) (source : option string)
    : outcome (list string * list Q) :=
  results ← calculate_by_payment_type df source;
  let pay_types := fmap fst results in
  totals ← all_ok (fmap (λ e : string * option Statistics, total_of e.2) results);
  Ok (pay_types, totals).

(** The frame a plot works on: the rows of a payment type, or a copy of the
    whole table; [None] when the payment type is not in the table. *)
Definition plot_data (df : Table) (pay_type : option string)
    : option (list Row) :=
  match pay_type with
  | Some p => get_payment_type_data df p
  | None => Some (rows df)
  end.

(** [plot_income_trend]: the value is what is handed to the plot, the x
    axis, the income series, the trend values and the average; [None] is
    the "not found" return.  [polyfit] stands for [np.polyfit(x, y, 2)],
    which is numpy's. *)
Definition plot_income_trend
    (polyfit : list Q → list Q → outcome (list Q))
    (df : Table) (source : string) (pay_type : option string)
    : outcome (option (list Q * list Q * list Q * Q)) :=
  let data := plot_data df pay_type in
  if decide (source ∈ get_available_sources df) then
    data ← match data with
           | Some data => Ok data
           | None => Raise TypeError
           end;
    let income := column df source data in
    let x_values := arange (length income) in
    z ← polyfit x_values income;
    let trend := fmap (poly1d z) x_values in
    avg_income ← np_mean income;
    Ok (Some (x_values, income, trend, avg_income))
  else Ok None.

(** [plot_income_sources_comparison]: the lines handed to [ax.plot], each
    the x axis, the series, the label and the position of its colour in the
    list of four colours. *)
Definition plot_income_sources_comparison (df : Table)
    (pay_type : option string)
    : outcome (list (list Q * list Q * string * nat)) :=
  data ← match plot_data df pay_type with
         | Some data => Ok data
         | None => Raise TypeError                 (* len(None) *)
         end;
  let sources := get_available_sources df in
  let x_values := arange (length data) in
  Ok (fmap (λ p : nat * string,
              (x_values, column df p.2 data, p.2, p.1 `mod` 4)%nat)
           (zip (seq 0 (length sources)) sources)).

End May2024.

(** * The scan for the best candidate *)





(** * Sample tables *)

Module Samples.

(** The two North flats of the specification's mean-series example. *)
Definition north_flats : May2022.Table :=
  May2022.mkTable ["m1"; "m2"]
    [ May2022.mkRow "N" "North" "Flat" 2 [1; 3];
      May2022.mkRow "N" "North" "Flat" 2 [2; 4] ].

(** Room counts met in the order 3, 1, 2, 3. *)
Definition unsorted_rooms : May2022.Table :=
  May2022.mkTable ["m1"]
    [ May2022.mkRow "N" "North" "Flat" 3 [1];
      May2022.mkRow "N" "North" "Flat" 1 [2];
      May2022.mkRow "S" "South" "House" 5 [2];
      May2022.mkRow "N" "North" "Flat" 2 [3];
      May2022.mkRow "N" "North" "Flat" 3 [4] ].




(** A table with the two key columns and no date column. *)
Definition no_dates : May2023.Table :=
  May2023.mkTable [] [ May2023.mkRow "A" "Lunch" [] ].


(** One item served at lunch and at dinner. *)
Definition ribs : May2023.Table :=
  May2023.mkTable ["d1"; "d2"]
    [ May2023.mkRow "Ribs" "Lunch" [1; 2];
      May2023.mkRow "Ribs" "Dinner" [10; 20];
      May2023.mkRow "Wings" "Dinner" [4; 4] ].

(** A table in which one row carries a day label that is no week day. *)
Definition park_holiday : May2024.Table :=
  May2024.mkTable ["Tickets"]
    [ May2024.mkRow "Monday" "Cash" [10];
      May2024.mkRow "Holiday" "Cash" [20];
      May2024.mkRow "Monday" "Card" [30] ].

(** Days met in the order Sunday, Monday, Sunday, Friday. *)
Definition park : May2024.Table :=
  May2024.mkTable ["Tickets"; "Gift Shop"]
    [ May2024.mkRow "Sunday" "Cash" [10; 1];
      May2024.mkRow "Monday" "Card" [20; 2];
      May2024.mkRow "Sunday" "Card" [30; 3];
      May2024.mkRow "Friday" "Cash" [40; 4] ].

End Samples.

(** * Properties *)

(** ** Distinct values *)

Section unique_facts.
Context {A : Type} `{EqDecision A}.
Implicit Types (l seen : list A) (x y : A).

Lemma elem_of_unique_from seen l x :
  x ∈ unique_from seen l ↔ x ∈ l ∧ x ∉ seen.
Proof.
  revert seen. induction l as [|z t IH]; intros seen; simpl.
  - rewrite elem_of_nil. split; [done | intros [H _]; inversion H].
  - destruct (decide (z ∈ seen)) as [Hz|Hz].
    + rewrite IH, elem_of_cons. split; [tauto |].
      intros [[->|Ht] Hs]; [done | tauto].
    + rewrite !elem_of_cons, IH, elem_of_cons.
      destruct (decide (x = z)) as [->|Hne]; [tauto |]. tauto.
Qed.

Lemma elem_of_unique l x : x ∈ unique l ↔ x ∈ l.
Proof.
  unfold unique. rewrite elem_of_unique_from, elem_of_nil. tauto.
Qed.

Lemma NoDup_unique_from seen l : NoDup (unique_from seen l).
Proof.
  revert seen. induction l as [|z t IH]; intros seen; simpl.
  - constructor.
  - destruct (decide (z ∈ seen)); [apply IH |].
    constructor; [| apply IH].
    rewrite elem_of_unique_from, elem_of_cons. tauto.
Qed.

Lemma NoDup_unique l : NoDup (unique l).
Proof. apply NoDup_unique_from. Qed.

Lemma first_index_elem x l : x ∈ l → ∃ p, first_index x l = Some p.
Proof.
  induction l as [|z t IH]; [intros H; inversion H |].
  intros H; simpl. destruct (decide (z = x)); [eauto |].
  apply elem_of_cons in H as [->|H]; [done |].
  destruct (IH H) as [p ->]. simpl. eauto.
Qed.

Lemma first_index_lookup x l p :
  first_index x l = Some p → l !! p = Some x ∧ ∀ q, (q < p)%nat → l !! q ≠ Some x.
Proof.
  revert p. induction l as [|z t IH]; intros p; simpl; [done |].
  destruct (decide (z = x)) as [->|Hne].
  - intros [= <-]. split; [done | intros q Hq; lia].
  - destruct (first_index x t) as [p'|]; simpl; [| done].
    intros [= <-]. destruct (IH p' eq_refl) as [H1 H2]. split; [done |].
    intros [|q] Hq; simpl; [congruence | apply H2; lia].
Qed.

Lemma lookup_unique_from seen l (i : nat) x :
  unique_from seen l !! i = Some x → x ∈ l ∧ x ∉ seen.
Proof. intros H. eapply elem_of_unique_from, list_elem_of_lookup_2, H. Qed.

(** Values come out of [unique_from] in the order of their first
    occurrences. *)
Lemma unique_from_order seen l (i j : nat) x y :
  (i < j)%nat →
  unique_from seen l !! i = Some x → unique_from seen l !! j = Some y →
  ∃ p q, first_index x l = Some p ∧ first_index y l = Some q ∧ (p < q)%nat.
Proof.
  revert seen i j. induction l as [|z t IH]; intros seen i j Hij; simpl.
  - by rewrite lookup_nil.
  - destruct (decide (z ∈ seen)) as [Hz|Hz].
    + intros Hx Hy.
      destruct (lookup_unique_from _ _ _ _ Hx) as [_ Hxs].
      destruct (lookup_unique_from _ _ _ _ Hy) as [_ Hys].
      destruct (IH seen i j Hij Hx Hy) as (p & q & -> & -> & Hpq).
      rewrite !decide_False by congruence. simpl.
      exists (S p), (S q). repeat split; lia.
    + destruct i as [|i], j as [|j]; simpl; try lia.
      * intros [= <-] Hy. rewrite decide_True by done.
        destruct (lookup_unique_from _ _ _ _ Hy)
          as [Hyt [Hyz _]%not_elem_of_cons].
        rewrite decide_False by done.
        destruct (first_index_elem y t Hyt) as [q ->]. simpl.
        exists 0%nat, (S q). repeat split; lia.
      * intros Hx Hy.
        destruct (lookup_unique_from _ _ _ _ Hx) as [_ [Hxz _]%not_elem_of_cons].
        destruct (lookup_unique_from _ _ _ _ Hy) as [_ [Hyz _]%not_elem_of_cons].
        destruct (IH (z :: seen) i j ltac:(lia) Hx Hy) as (p & q & -> & -> & Hpq).
        rewrite !decide_False by done. simpl.
        exists (S p), (S q). repeat split; lia.
Qed.
End unique_facts.

(** C8.  [get_available_regions] lists the distinct regions without
    repetition and in the order of their first appearance in the Region
    column; [get_available_days] lists, in Monday-to-Sunday order, exactly
    the week days that occur in the Day column. *)
Theorem distinct_values_order (df22 : May2022.Table) (df24 : May2024.Table) :
  let regions := May2022.get_available_regions df22 in
  let col := May2022.Region <$> May2022.rows df22 in
  let days := May2024.get_available_days df24 in
  (NoDup regions ∧
   (∀ x, x ∈ regions ↔ x ∈ col) ∧
   (∀ (i j : nat) x y, (i < j)%nat →
      regions !! i = Some x → regions !! j = Some y →
      ∃ p q, first_index x col = Some p ∧ first_index y col = Some q ∧
             (p < q)%nat)) ∧
  (sublist days May2024.week_order ∧
   (∀ d, d ∈ days ↔
         d ∈ May2024.week_order ∧ d ∈ May2024.Day <$> May2024.rows df24)).
Proof.
  intros regions col days. split; [split; [| split] | split].
  - apply NoDup_unique.
  - intros x. apply elem_of_unique.
  - intros i j x y. apply unique_from_order.
  - apply sublist_filter.
  - intros d. unfold days, May2024.get_available_days.
    rewrite list_elem_of_filter, elem_of_unique. tauto.
Qed.

Lemma distinct_values_order_witness :
  May2022.get_available_regions Samples.unsorted_rooms = ["North"; "South"] ∧
  (∃ p q, first_index "North"
            (May2022.Region <$> May2022.rows Samples.unsorted_rooms) = Some p ∧
          first_index "South"
            (May2022.Region <$> May2022.rows Samples.unsorted_rooms) = Some q ∧
          (p < q)%nat) ∧
  May2024.get_available_days Samples.park = ["Monday"; "Friday"; "Sunday"].
Proof.
  split; [reflexivity |]. split; [| reflexivity].
  destruct (distinct_values_order Samples.unsorted_rooms Samples.park)
    as [(_ & _ & Horder) _].
  apply (Horder 0%nat 1%nat "North" "South"); [lia | reflexivity..].
Defined.

(** ** Selection by key *)

Lemma get_region_data_Some (df : May2022.Table) region_name region_data :
  May2022.get_region_data df region_name = Some region_data →
  region_name ∈ May2022.Region <$> May2022.rows df ∧
  region_data = filter (λ r, May2022.Region r = region_name) (May2022.rows df).
Proof.
  unfold May2022.get_region_data. case_decide; [| done].
  by intros [= <-].
Qed.

Lemma filter_key_nonempty {Row} (key : Row → string) (k : string)
    (frame : list Row) :
  k ∈ key <$> frame → filter (λ r, key r = k) frame ≠ [].
Proof.
  intros (r & -> & Hr)%list_elem_of_fmap Hnil.
  by apply (filter_nil_not_elem_of _ _ r) in Hnil.
Qed.

(** C1 (as amended).  Neither selector can raise.  A key value that never
    occurs in its column makes the selector return [None], not an empty
    selection; when every supplied key value occurs in its column, the
    selector returns the rows that match all keys, in table order, and for
    the single-key selector of may2022.py that selection is not empty. *)
Theorem selector_result (df22 : May2022.Table) (df23 : May2023.Table)
    (region_name menu_item : string) (service : option string) :
  let regions := May2022.Region <$> May2022.rows df22 in
  let items := May2023.Menu_Item <$> May2023.rows df23 in
  let services := May2023.Service <$> May2023.rows df23 in
  let service_ok := match service with Some s => s ∈ services | None => True end in
  let matches r :=
    May2023.Menu_Item r = menu_item ∧
    match service with Some s => May2023.Service r = s | None => True end in
  let of_service data :=
    match service with
    | Some s => filter (λ r, May2023.Service r = s) data
    | None => data
    end in
  (region_name ∉ regions → May2022.get_region_data df22 region_name = None) ∧
  (region_name ∈ regions →
     ∃ sel, May2022.get_region_data df22 region_name = Some sel ∧
            sel = filter (λ r, May2022.Region r = region_name) (May2022.rows df22) ∧
            sel ≠ [] ∧ sublist sel (May2022.rows df22) ∧
            ∀ r, r ∈ sel ↔ r ∈ May2022.rows df22 ∧ May2022.Region r = region_name) ∧
  (menu_item ∉ items ∨ ¬ service_ok →
     May2023.get_menu_item_data df23 menu_item service = None) ∧
  (menu_item ∈ items ∧ service_ok →
     ∃ sel, May2023.get_menu_item_data df23 menu_item service = Some sel ∧
            sel = of_service
                    (filter (λ r, May2023.Menu_Item r = menu_item) (May2023.rows df23)) ∧
            sublist sel (May2023.rows df23) ∧
            ∀ r, r ∈ sel ↔ r ∈ May2023.rows df23 ∧ matches r).
Proof.
  intros regions items services service_ok matches of_service.
  subst service_ok matches of_service. split; [| split; [| split]].
  - intros Hno. unfold May2022.get_region_data. by rewrite decide_False.
  - intros Hin. unfold May2022.get_region_data. rewrite decide_True by done.
    eexists; split; [done |]. split; [done |].
    split; [by apply filter_key_nonempty |]. split; [apply sublist_filter |].
    intros r. rewrite list_elem_of_filter. tauto.
  - unfold May2023.get_menu_item_data. intros [Hno | Hno].
    + by rewrite decide_False.
    + case_decide; [| done]. destruct service as [s|]; simpl in Hno; [| tauto].
      by rewrite decide_False.
  - unfold May2023.get_menu_item_data. intros [Hin Hs].
    rewrite decide_True by done. destruct service as [s|]; simpl in Hs.
    + rewrite decide_True by done. eexists; split; [done |]. split; [done |].
      split; [etrans; apply sublist_filter |].
      intros r. rewrite !list_elem_of_filter. tauto.
    + eexists; split; [done |]. split; [done |]. split; [apply sublist_filter |].
      intros r. rewrite list_elem_of_filter. tauto.
Qed.

Lemma selector_result_witness :
  May2022.get_region_data Samples.unsorted_rooms "West" = None ∧
  (∃ sel, May2022.get_region_data Samples.unsorted_rooms "South" = Some sel ∧
          sel ≠ []) ∧
  May2023.get_menu_item_data Samples.ribs "Ribs" (Some "Supper") = None ∧
  (∃ sel, May2023.get_menu_item_data Samples.ribs "Wings" (Some "Lunch")
          = Some sel).
Proof.
  pose proof (selector_result Samples.unsorted_rooms Samples.ribs
                "West" "Ribs" (Some "Supper")) as (H1 & _ & H3 & _).
  pose proof (selector_result Samples.unsorted_rooms Samples.ribs
                "South" "Wings" (Some "Lunch")) as (_ & H2 & _ & H4).
  split; [apply H1; compute_done |].
  split.
  { destruct H2 as (sel & ? & _ & ? & _); [compute_done |]. by exists sel. }
  split; [apply H3; right; compute_done |].
  destruct H4 as (sel & ? & _); [split; compute_done |].
  by exists sel.
Defined.

(** C1, counterexample to the claim as first stated: "West" is not in the
    Region column and the selector answers [None], which is not the empty
    selection. *)
Lemma selector_unobserved_key_is_None :
  ("West" ∉ May2022.Region <$> May2022.rows Samples.unsorted_rooms) ∧
  May2022.get_region_data Samples.unsorted_rooms "West" ≠ Some [].
Proof. split; [compute_done | by vm_compute]. Qed.

(** ** Room sizes *)

Lemma StronglySorted_le_NoDup_lt (l : list Z) :
  StronglySorted Z.le l → NoDup l → StronglySorted Z.lt l.
Proof.
  induction 1 as [|x l Hs IH Hx]; intros Hnd; [constructor |].
  apply NoDup_cons in Hnd as [Hxl Hnd]. constructor; [by apply IH |].
  rewrite Forall_forall in Hx |- *. intros y Hy.
  assert (x ≠ y) by (intros ->; done). specialize (Hx y Hy). lia.
Qed.

(** C10.  [get_room_sizes_for_property] returns the room counts of the rows
    of the given region and property type, each once, in strictly ascending
    order, whatever their order in the table; it returns the empty list when
    the region does not occur in the Region column. *)
Theorem room_sizes_sorted (df : May2022.Table) (region_name property_type : string) :
  let rooms := May2022.get_room_sizes_for_property df region_name property_type in
  StronglySorted Z.lt rooms ∧
  (∀ n, n ∈ rooms ↔
        ∃ r, r ∈ May2022.rows df ∧ May2022.Region r = region_name ∧
             May2022.Property_Type r = property_type ∧ May2022.Rooms r = n) ∧
  (region_name ∉ (May2022.Region <$> May2022.rows df) → rooms = []).
Proof.
  intros rooms. subst rooms. unfold May2022.get_room_sizes_for_property.
  destruct (May2022.get_region_data df region_name) as [region_data|] eqn:Hsel.
  - apply get_region_data_Some in Hsel as [Hin ->]. split; [| split].
    + apply StronglySorted_le_NoDup_lt.
      * apply StronglySorted_merge_sort; apply _.
      * rewrite merge_sort_Permutation. apply NoDup_unique.
    + intros n. rewrite merge_sort_Permutation, elem_of_unique, list_elem_of_fmap.
      split.
      * intros (r & -> & [? [? ?]%list_elem_of_filter]%list_elem_of_filter).
        by exists r.
      * intros (r & Hr & H1 & H2 & H3). exists r.
        by rewrite !list_elem_of_filter.
    + done.
  - unfold May2022.get_region_data in Hsel. case_decide; [done |].
    split; [constructor | split; [| done]].
    intros n. rewrite elem_of_nil. split; [done |].
    intros (r & Hr & <- & _). destruct H. by apply list_elem_of_fmap_2.
Qed.

Lemma room_sizes_sorted_witness :
  May2022.get_room_sizes_for_property Samples.unsorted_rooms "West" "Flat" = [] ∧
  May2022.get_room_sizes_for_property Samples.unsorted_rooms "North" "Flat"
  = [1; 2; 3]%Z.
Proof.
  split; [| reflexivity].
  apply (room_sizes_sorted Samples.unsorted_rooms "West" "Flat"). compute_done.
Defined.

(** ** Time series of a menu item *)

Lemma get_menu_item_data_all (df : May2023.Table) menu_item first rest :
  filter (λ r, May2023.Menu_Item r = menu_item) (May2023.rows df) = first :: rest →
  May2023.get_menu_item_data df menu_item None = Some (first :: rest) ∧
  May2023.get_menu_item_data df menu_item (Some (May2023.Service first))
  = Some (first :: filter (λ r, May2023.Service r = May2023.Service first) rest).
Proof.
  intros Hsel.
  assert (first ∈ filter (λ r, May2023.Menu_Item r = menu_item) (May2023.rows df))
    as [Hitem Hrow]%list_elem_of_filter by (rewrite Hsel; left).
  unfold May2023.get_menu_item_data.
  rewrite !decide_True by (by eapply list_elem_of_fmap_2').
  rewrite Hsel. by rewrite filter_cons_True.
Qed.

(** C9.  With no service given, the time series of a menu item is the row of
    cells of the first table row carrying that item, whatever further rows
    (of other services) carry it too; the "all services" statistics are
    therefore the statistics of that one row, the same as those reported for
    that row's own service. *)
Theorem all_services_is_first_row (df : May2023.Table) (menu_item : string)
    (first : May2023.Row) (rest : list May2023.Row) :
  filter (λ r, May2023.Menu_Item r = menu_item) (May2023.rows df) = first :: rest →
  May2023.get_sales_time_series df menu_item None
  = Some (May2023.date_labels df, May2023.sales first) ∧
  May2023.calculate_menu_stats df menu_item None
  = (stats ← stats_dict (May2023.sales first); Ok (Some stats)) ∧
  May2023.calculate_menu_stats df menu_item None
  = May2023.calculate_menu_stats df menu_item (Some (May2023.Service first)).
Proof.
  intros Hsel. destruct (get_menu_item_data_all df menu_item first rest Hsel)
    as [Hall Hone].
  unfold May2023.calculate_menu_stats, May2023.get_sales_time_series.
  by rewrite Hall, Hone.
Qed.

Lemma all_services_is_first_row_witness :
  May2023.get_sales_time_series Samples.ribs "Ribs" None
  = Some (["d1"; "d2"], [1; 2]) ∧
  May2023.calculate_menu_stats Samples.ribs "Ribs" None
  = May2023.calculate_menu_stats Samples.ribs "Ribs" (Some "Lunch").
Proof.
  pose proof (all_services_is_first_row Samples.ribs "Ribs"
                (May2023.mkRow "Ribs" "Lunch" [1; 2])
                [May2023.mkRow "Ribs" "Dinner" [10; 20]] eq_refl)
    as (H1 & _ & H3).
  split; [exact H1 | exact H3].
Defined.

(** ** Statistics of a sequence *)







(** On a non-empty sequence every entry of the dictionary is defined. *)
Lemma stats_dict_cons (x : Q) (t : list Q) :
  ∃ v, stats_dict (x :: t)
       = Ok (mkStatistics (np_sum (x :: t)) (np_sum (x :: t) / len (x :: t))
                          (foldl Qmax x t) (foldl Qmin x t) (Sqrt v)
                          (length (x :: t))).
Proof. eexists. reflexivity. Qed.




(** C7.  On [10, 20, 30] the statistics are total 60, average 20, max 30,
    min 10 and count 3; the standard deviation is the square root of 200/3,
    that is 8.1649..., the population value, and not the sample value, which
    is the square root of 200/2 = 100. *)
Theorem reduce_10_20_30 :
  ∃ st, May2024.calculate_income_stats (Some [10; 20; 30]) = Ok (Some st) ∧
        total st == 60 ∧ average st == 20 ∧ max st == 30 ∧ min st == 10 ∧
        count st = 3%nat ∧
        radicand (std_dev st) == 200 # 3 ∧
        ¬ radicand (std_dev st) == 200 # 2 ∧
        (8.1649 < surd_R (std_dev st) < 8.1650)%R.
Proof.
  eexists. split; [vm_compute; reflexivity |]. simpl.
  repeat (split; [by vm_compute |]).
  unfold surd_R. simpl radicand.
  assert (Q2R (145800 # 2187) = (200 / 3)%R) as ->
    by (unfold Q2R; simpl; lra).
  split.
  - rewrite <- (sqrt_square 8.1649) by lra. apply sqrt_lt_1_alt. lra.
  - rewrite <- (sqrt_square 8.1650) by lra. apply sqrt_lt_1_alt. lra.
Qed.

(** ** Empty sequences and empty selections *)

Lemma calculate_income_stats_returns (data : option (list Q)) :
  returns (May2024.calculate_income_stats data).
Proof.
  destruct data as [[|x t]|]; [by eexists.. | | by eexists].
  destruct (stats_dict_cons x t) as [v Hv].
  unfold May2024.calculate_income_stats. rewrite Hv. by eexists.
Qed.

Lemma column_nil (df : May2024.Table) (source : string) :
  May2024.column df source [] = [].
Proof. unfold May2024.column. by destruct (first_index _ _). Qed.

Lemma get_day_data_available (df : May2024.Table) (day : string) :
  day ∈ May2024.get_available_days df →
  May2024.get_day_data df day
  = Some (filter (λ r, May2024.Day r = day) (May2024.rows df)).
Proof. intros Hday. unfold May2024.get_day_data. by rewrite decide_True. Qed.

Lemma day_entry_returns (df : May2024.Table) (source pay_type : option string)
    (day : string) :
  day ∈ May2024.get_available_days df →
  returns (May2024.day_entry df source pay_type day).
Proof.
  intros Hday. unfold May2024.day_entry.
  rewrite (get_day_data_available _ _ Hday).
  cbn -[May2024.calculate_income_stats].
  destruct source as [s|]; [case_decide; [| by eexists] |];
    match goal with
    | |- context [May2024.calculate_income_stats ?d] =>
        destruct (calculate_income_stats_returns d) as [st ->]
    end; by eexists.
Qed.

Lemma all_ok_returns {A B} (f : A → outcome B) (l : list A) :
  (∀ x, x ∈ l → returns (f x)) →
  ∃ ys, all_ok (f <$> l) = Ok ys ∧ ∀ x y, x ∈ l → f x = Ok y → y ∈ ys.
Proof.
  induction l as [|x l IH]; intros Hret.
  - exists []. split; [done |]. intros x y Hx. inversion Hx.
  - destruct (Hret x) as [y Hy]; [left |].
    destruct IH as (ys & Hys & Hin); [intros; apply Hret; by right |].
    exists (y :: ys). rewrite fmap_cons. cbn [all_ok]. rewrite Hy, Hys.
    split; [done |].
    intros x' y' [->|Hx']%elem_of_cons Hy'.
    + rewrite Hy in Hy'. injection Hy' as <-. left.
    + right. eauto.
Qed.

Lemma day_entry_empty (df : May2024.Table) (source : option string)
    (pay_type day : string) :
  day ∈ May2024.get_available_days df →
  match source with
  | Some s => s ∈ May2024.get_available_sources df
  | None => True
  end →
  filter (λ r, May2024.Pay_Type r = pay_type)
         (filter (λ r, May2024.Day r = day) (May2024.rows df)) = [] →
  May2024.day_entry df source (Some pay_type) day = Ok (Some (day, None)).
Proof.
  intros Hday Hsource Hempty. unfold May2024.day_entry.
  rewrite (get_day_data_available _ _ Hday).
  cbn -[May2024.calculate_income_stats]. rewrite Hempty.
  destruct source as [s|]; [rewrite decide_True by done; rewrite column_nil |];
    reflexivity.
Qed.

(** C5.  [calculate_income_stats] answers [None] on the empty sequence and on
    [None], and returns on every input, so no mean of an empty sequence is
    ever taken.  In may2023.py an invalid selection ([None]) and an empty
    one yield the same absent series and absent statistics.  In
    [calculate_by_day_of_week] a payment type with no row on a day, whether
    it occurs elsewhere in the table or nowhere, leaves that day with absent
    statistics. *)
Theorem reduce_empty_absent (df23 : May2023.Table) (df24 : May2024.Table)
    (menu_item : string) (service source : option string)
    (pay_type day : string) :
  (May2024.calculate_income_stats (Some []) = Ok None ∧
   May2024.calculate_income_stats None = Ok None ∧
   ∀ data, returns (May2024.calculate_income_stats data)) ∧
  (May2023.get_menu_item_data df23 menu_item service = None ∨
   May2023.get_menu_item_data df23 menu_item service = Some [] →
   May2023.get_sales_time_series df23 menu_item service = None ∧
   May2023.calculate_menu_stats df23 menu_item service = Ok None) ∧
  (day ∈ May2024.get_available_days df24 →
   match source with
   | Some s => s ∈ May2024.get_available_sources df24
   | None => True
   end →
   filter (λ r, May2024.Pay_Type r = pay_type)
          (filter (λ r, May2024.Day r = day) (May2024.rows df24)) = [] →
   ∃ results,
     May2024.calculate_by_day_of_week df24 source (Some pay_type) = Ok results ∧
     (day, None) ∈ results).
Proof.
  split; [| split].
  - repeat split. apply calculate_income_stats_returns.
  - unfold May2023.calculate_menu_stats, May2023.get_sales_time_series.
    by intros [-> | ->].
  - intros Hday Hsource Hempty. unfold May2024.calculate_by_day_of_week.
    destruct (all_ok_returns (May2024.day_entry df24 source (Some pay_type))
                (May2024.get_available_days df24)) as (entries & -> & Hin).
    { intros d Hd. by apply day_entry_returns. }
    eexists; split; [reflexivity |].
    apply list_elem_of_omap. exists (Some (day, None)). split; [| done].
    apply (Hin day); [done |]. by apply day_entry_empty.
Qed.

Lemma reduce_empty_absent_witness :
  May2023.calculate_menu_stats Samples.ribs "Wings" (Some "Lunch") = Ok None ∧
  May2023.calculate_menu_stats Samples.ribs "Wings" (Some "Supper") = Ok None ∧
  (∃ results,
     May2024.calculate_by_day_of_week Samples.park None (Some "Cash") = Ok results ∧
     ("Monday", None) ∈ results) ∧
  (∃ results,
     May2024.calculate_by_day_of_week Samples.park (Some "Tickets") (Some "Cheque")
     = Ok results ∧ ("Monday", None) ∈ results).
Proof.
  pose proof (reduce_empty_absent Samples.ribs Samples.park "Wings"
                (Some "Lunch") None "Cash" "Monday") as (_ & H1 & H3).
  pose proof (reduce_empty_absent Samples.ribs Samples.park "Wings"
                (Some "Supper") (Some "Tickets") "Cheque" "Monday")
    as (_ & H2 & H4).
  split; [apply H1; right; reflexivity |].
  split; [apply H2; left; reflexivity |].
  split; [apply H3 | apply H4]; first [compute_done | exact I | reflexivity].
Defined.

(** ** Mean series of a group of rows *)

Lemma all_ok_Forall2 {A B} (f : A → outcome B) (l : list A) (ys : list B) :
  all_ok (f <$> l) = Ok ys → Forall2 (λ x y, f x = Ok y) l ys.
Proof.
  revert ys. induction l as [|x l IH]; intros ys.
  - intros [= <-]. constructor.
  - rewrite fmap_cons. cbn [all_ok].
    destruct (f x) as [y|e] eqn:Hy; [| done]. cbn.
    destruct (all_ok (f <$> l)) as [ys'|e]; [| done]. cbn.
    intros [= <-]. constructor; [done | by apply IH].
Qed.

Lemma column_sums_length (width : nat) (block : list (list Q)) :
  Forall (λ r, length r = width) block →
  length (column_sums width block) = width.
Proof.
  induction 1 as [|r block Hr _ IH].
  - apply length_replicate.
  - change (column_sums width (r :: block))
      with (zip_with Qplus r (column_sums width block)).
    rewrite length_zip_with, IH, Hr. lia.
Qed.

(** Entry [j] of the column sums is the sum of the cells [j] of the rows. *)
Lemma column_sums_lookup (width : nat) (block : list (list Q)) (j : nat) :
  (j < width)%nat →
  Forall (λ r, length r = width) block →
  column_sums width block !! j = Some (np_sum ((λ r, nth j r 0) <$> block)).
Proof.
  intros Hj. induction 1 as [|r block Hr _ IH].
  - by apply lookup_replicate_2.
  - change (column_sums width (r :: block))
      with (zip_with Qplus r (column_sums width block)).
    rewrite lookup_zip_with, IH.
    destruct (r !! j) as [x|] eqn:Hx.
    + simpl. do 2 f_equal. symmetry. by apply nth_lookup_Some.
    + apply lookup_ge_None in Hx. lia.
Qed.

Lemma frame_mean_lookup (width : nat) (block : list (list Q)) (avg : list Q) :
  Forall (λ r, length r = width) block →
  frame_mean width block = Ok avg →
  block ≠ [] ∧ length avg = width ∧
  ∀ j, (j < width)%nat →
       avg !! j = Some (np_sum ((λ r, nth j r 0) <$> block)
                        / inject_Z (Z.of_nat (length block))).
Proof.
  intros Hwf. unfold frame_mean. destruct block as [|r block]; [done |].
  intros [= <-]. split; [done |].
  split; [rewrite length_fmap; by apply (column_sums_length width (r :: block)) |].
  intros j Hj. rewrite list_lookup_fmap.
  change (zip_with Qplus r (column_sums width block))
    with (column_sums width (r :: block)).
  by rewrite (column_sums_lookup _ _ _ Hj Hwf).
Qed.

Lemma elem_of_groupby {Row} (key : Row → string) (frame : list Row)
    (k : string) (g : list Row) :
  (k, g) ∈ groupby key frame ↔
  k ∈ key <$> frame ∧ g = filter (λ r, key r = k) frame.
Proof.
  unfold groupby. rewrite list_elem_of_fmap. split.
  - intros (k' & [= -> ->] & Hk).
    by rewrite merge_sort_Permutation, elem_of_unique in Hk.
  - intros [Hk ->]. exists k. split; [done |].
    by rewrite merge_sort_Permutation, elem_of_unique.
Qed.

(** C6.  For a region of the table, [plot_region_comparison] draws one line
    per property type of the region; the line has one value per month
    column, in column order, and value [j] is the sum of the cells of month
    [j] over the [k] rows of the region with that property type, divided by
    [k].  On the two North flats of the specification the line is
    [1.5, 3.5]. *)
Theorem mean_series_per_column (df : May2022.Table) (region_name : string) :
  May2022.wf df →
  region_name ∈ May2022.Region <$> May2022.rows df →
  (∃ lines,
     May2022.plot_region_comparison df region_name = Ok (Some lines) ∧
     (∀ r, r ∈ May2022.rows df → May2022.Region r = region_name →
           ∃ avg_values,
             (May2022.Property_Type r, May2022.month_labels df, avg_values)
             ∈ lines) ∧
     ∀ property_type labels avg_values,
       (property_type, labels, avg_values) ∈ lines →
       let sel :=
         filter (λ r, May2022.Property_Type r = property_type)
                (filter (λ r, May2022.Region r = region_name) (May2022.rows df)) in
       let k := length sel in
       (0 < k)%nat ∧ labels = May2022.month_labels df ∧
       length avg_values = length (May2022.month_labels df) ∧
       ∀ j, (j < length (May2022.month_labels df))%nat →
            avg_values !! j
            = Some (np_sum ((λ r, nth j (May2022.months r) 0) <$> sel)
                    / inject_Z (Z.of_nat k))) ∧
  May2022.plot_region_comparison Samples.north_flats "North"
  = Ok (Some [("Flat", ["m1"; "m2"], [3 # 2; 7 # 2])]).
Proof.
  intros Hwf Hregion. split; [| reflexivity].
  unfold May2022.plot_region_comparison, May2022.get_region_data.
  rewrite decide_True by done.
  set (region_data := filter (λ r, May2022.Region r = region_name) (May2022.rows df)).
  set (line := λ pg : string * list May2022.Row,
         avg_values ← frame_mean (length (May2022.month_labels df))
                                 (May2022.months <$> pg.2);
         Ok (pg.1, May2022.month_labels df, avg_values)).
  assert (∀ k g, (k, g) ∈ groupby May2022.Property_Type region_data →
                 Forall (λ c, length c = length (May2022.month_labels df))
                        (May2022.months <$> g)) as Hblock.
  { intros k g [_ ->]%elem_of_groupby. apply Forall_fmap, Forall_forall.
    intros r [_ [_ Hr]%list_elem_of_filter]%list_elem_of_filter.
    unfold May2022.wf in Hwf. rewrite Forall_forall in Hwf. by apply Hwf. }
  destruct (all_ok_returns line (groupby May2022.Property_Type region_data))
    as (lines & Hlines & Hin).
  { intros [k g] [Hk ->]%elem_of_groupby. unfold line, frame_mean. simpl.
    destruct (filter _ region_data) as [|r sel] eqn:Hsel; [| by eexists].
    by apply filter_key_nonempty in Hk. }
  exists lines. rewrite Hlines. split; [done |]. split.
  - intros r Hr Hreg.
    assert (r ∈ region_data) as Hr' by (by apply list_elem_of_filter).
    set (g := filter (λ r', May2022.Property_Type r' = May2022.Property_Type r)
                     region_data).
    assert ((May2022.Property_Type r, g)
            ∈ groupby May2022.Property_Type region_data) as Hg.
    { apply elem_of_groupby. split; [by apply list_elem_of_fmap_2 | done]. }
    destruct (frame_mean (length (May2022.month_labels df)) (May2022.months <$> g))
      as [avg|e] eqn:Havg.
    + exists avg. apply (Hin _ _ Hg). unfold line. simpl. by rewrite Havg.
    + unfold frame_mean in Havg.
      assert (r ∈ g) as Hrg by (by apply list_elem_of_filter).
      destruct g; [inversion Hrg | done].
  - intros property_type labels avg_values Hline.
    apply all_ok_Forall2 in Hlines.
    apply list_elem_of_lookup in Hline as [i Hi].
    destruct (Forall2_lookup_r _ _ _ _ _ Hlines Hi) as ([k g] & Hkg & Hline).
    apply list_elem_of_lookup_2 in Hkg.
    pose proof (Hblock k g Hkg) as Hlen.
    apply elem_of_groupby in Hkg as [Hk ->].
    unfold line in Hline. simpl in Hline.
    destruct (frame_mean _ _) as [avg|e] eqn:Havg; [| done].
    injection Hline as <- <- <-.
    destruct (frame_mean_lookup _ _ _ Hlen Havg) as (Hne & Hlength & Hcol).
    split; [| split; [done | split; [done |]]].
    + destruct (filter _ region_data); [done | simpl; lia].
    + intros j Hj. rewrite (Hcol j Hj), length_fmap.
      by rewrite <- list_fmap_compose.
Qed.

Lemma mean_series_per_column_witness :
  ∃ lines,
    May2022.plot_region_comparison Samples.north_flats "North" = Ok (Some lines) ∧
    ∀ property_type labels avg_values,
      (property_type, labels, avg_values) ∈ lines →
      length avg_values = 2%nat.
Proof.
  destruct (mean_series_per_column Samples.north_flats "North")
    as [(lines & Hlines & _ & Hcol) _].
  - unfold May2022.wf. simpl. repeat constructor.
  - compute_done.
  - exists lines. split; [exact Hlines |].
    intros property_type labels avg_values Hline.
    by destruct (Hcol _ _ _ Hline) as (_ & _ & Hlength & _).
Defined.

(** ** The highest performing region *)

(** C2.  [find_highest_performing_region] never returns: whatever the table,
    the expression [df.groupby('Region').iloc[:, 4:]] raises, with
    [AttributeError] on every table that has no column called "iloc". *)
Theorem highest_region_raises (df : May2022.Table) :
  (∃ e, May2022.find_highest_performing_region df = Raise e) ∧
  May2022.find_highest_performing_region Samples.north_flats
  = Raise AttributeError.
Proof.
  split; [| reflexivity].
  unfold May2022.find_highest_performing_region, May2022.groupby_getattr.
  case_decide; by eexists.
Qed.

(** ** The best candidate *)



Lemma get_sales_time_series_Some (df : May2023.Table) (menu_item : string)
    (service : option string) (labels : list string) (series : list Q) :
  May2023.get_sales_time_series df menu_item service = Some (labels, series) →
  labels = May2023.date_labels df ∧
  ∃ first, first ∈ May2023.rows df ∧ May2023.Menu_Item first = menu_item ∧
           series = May2023.sales first.
Proof.
  unfold May2023.get_sales_time_series.
  destruct (May2023.get_menu_item_data df menu_item service)
    as [[|first rest]|] eqn:Hsel; [done | | done].
  intros [= <- <-]. split; [done |]. exists first.
  assert (first ∈ filter (λ r, May2023.Menu_Item r = menu_item) (May2023.rows df))
    as [? ?]%list_elem_of_filter; [| done].
  unfold May2023.get_menu_item_data in Hsel. case_decide; [| done].
  destruct service as [s|].
  - case_decide; [| done]. injection Hsel as Hsel.
    assert (first ∈ first :: rest) as Hfirst by left.
    rewrite <- Hsel in Hfirst. by apply list_elem_of_filter in Hfirst as [_ ?].
  - injection Hsel as ->. left.
Qed.

Lemma series_nonempty (df : May2023.Table) (menu_item : string)
    (service : option string) (labels : list string) (series : list Q) :
  May2023.wf df →
  May2023.get_sales_time_series df menu_item service = Some (labels, series) →
  length series = length (May2023.date_labels df).
Proof.
  intros Hwf (_ & first & Hfirst & _ & ->)%get_sales_time_series_Some.
  unfold May2023.wf in Hwf. rewrite Forall_forall in Hwf. by apply Hwf.
Qed.









(** The statistics of a menu item are those of a table row; on a table
    without date columns that row is empty and [calculate_menu_stats], which
    checks for [None] only, does not return. *)
Remark menu_stats_without_dates :
  ¬ returns (May2023.calculate_menu_stats Samples.no_dates "A" None).
Proof. intros [st H]. vm_compute in H. discriminate. Qed.

(** * Further properties of the three scripts *)

(** ** may2022.py: what the menu offers and what it then finds *)

Lemma get_region_data_None (df : May2022.Table) (region_name : string) :
  May2022.get_region_data df region_name = None ↔
  region_name ∉ May2022.Region <$> May2022.rows df.
Proof.
  unfold May2022.get_region_data. case_decide; [| done].
  split; [done | intros Hno; by destruct Hno].
Qed.

Lemma filter_none {A} (P : A → Prop) `{!∀ x, Decision (P x)} (l : list A) :
  (∀ x, x ∈ l → ¬ P x) → filter P l = [].
Proof.
  induction l as [|x l IH]; intros Hno; [done |].
  rewrite filter_cons_False by (apply Hno; left).
  apply IH. intros y Hy. apply Hno. by right.
Qed.

Lemma elem_of_property_types (df : May2022.Table) (region_name t : string) :
  t ∈ May2022.get_property_types_in_region df region_name ↔
  ∃ r, r ∈ May2022.rows df ∧ May2022.Region r = region_name ∧
       May2022.Property_Type r = t.
Proof.
  unfold May2022.get_property_types_in_region.
  destruct (May2022.get_region_data df region_name) as [region_data|] eqn:Hsel.
  - apply get_region_data_Some in Hsel as [_ ->].
    rewrite elem_of_unique, list_elem_of_fmap. split.
    + intros (r & -> & [? ?]%list_elem_of_filter). by exists r.
    + intros (r & Hr & Hreg & <-). exists r. by rewrite list_elem_of_filter.
  - apply get_region_data_None in Hsel. rewrite elem_of_nil. split; [done |].
    intros (r & Hr & <- & _). destruct Hsel. by apply list_elem_of_fmap_2.
Qed.

Lemma elem_of_room_sizes (df : May2022.Table) (region_name property_type : string)
    (n : Z) :
  n ∈ May2022.get_room_sizes_for_property df region_name property_type ↔
  ∃ r, r ∈ May2022.rows df ∧ May2022.Region r = region_name ∧
       May2022.Property_Type r = property_type ∧ May2022.Rooms r = n.
Proof.
  unfold May2022.get_room_sizes_for_property.
  destruct (May2022.get_region_data df region_name) as [region_data|] eqn:Hsel.
  - apply get_region_data_Some in Hsel as [_ ->].
    rewrite merge_sort_Permutation, elem_of_unique, list_elem_of_fmap. split.
    + intros (r & -> & [? [? ?]%list_elem_of_filter]%list_elem_of_filter).
      by exists r.
    + intros (r & Hr & H1 & H2 & H3). exists r.
      by rewrite !list_elem_of_filter.
  - apply get_region_data_None in Hsel. rewrite elem_of_nil. split; [done |].
    intros (r & Hr & <- & _). destruct Hsel. by apply list_elem_of_fmap_2.
Qed.

(** X1.  [get_property_types_in_region] lists, without repetition, exactly
    the property types of the rows of the region; the list is empty exactly
    when the region does not occur in the Region column. *)
Theorem property_types_of_region (df : May2022.Table) (region_name : string) :
  let types := May2022.get_property_types_in_region df region_name in
  NoDup types ∧
  (∀ t, t ∈ types ↔
        ∃ r, r ∈ May2022.rows df ∧ May2022.Region r = region_name ∧
             May2022.Property_Type r = t) ∧
  (types = [] ↔ region_name ∉ May2022.Region <$> May2022.rows df).
Proof.
  intros types. split; [| split].
  - subst types. unfold May2022.get_property_types_in_region.
    destruct (May2022.get_region_data df region_name);
      [apply NoDup_unique | constructor].
  - intros t. apply elem_of_property_types.
  - split.
    + intros Hnil (r & -> & Hr)%list_elem_of_fmap.
      assert (May2022.Property_Type r ∈ types) as Ht
        by (apply elem_of_property_types; by exists r).
      rewrite Hnil in Ht. inversion Ht.
    + intros Hno. subst types. unfold May2022.get_property_types_in_region.
      by rewrite (proj2 (get_region_data_None df region_name) Hno).
Qed.

(** X2.  [get_time_series_data] answers [None] exactly when no row has the
    given region, property type and room count; otherwise it answers the
    month labels together with the cells of the first such row in table
    order, and on a well-formed table labels and cells are equally many. *)
Theorem time_series_is_first_match (df : May2022.Table)
    (region_name property_type : string) (rooms : Z) :
  let matching :=
    filter (λ r, May2022.Region r = region_name ∧
                 May2022.Property_Type r = property_type ∧
                 May2022.Rooms r = rooms) (May2022.rows df) in
  let result := May2022.get_time_series_data df region_name property_type rooms in
  (matching = [] ↔ result = None) ∧
  (∀ first rest, matching = first :: rest →
     result = Some (May2022.month_labels df, May2022.months first)) ∧
  (May2022.wf df → ∀ labels series,
     result = Some (labels, series) → length labels = length series).
Proof.
  intros matching result.
  assert (result = match matching with
                   | [] => None
                   | first :: _ =>
                       Some (May2022.month_labels df, May2022.months first)
                   end) as Hresult.
  { subst result matching. unfold May2022.get_time_series_data.
    destruct (May2022.get_region_data df region_name) as [region_data|] eqn:Hsel.
    - apply get_region_data_Some in Hsel as [_ ->].
      rewrite list_filter_filter.
      by rewrite (list_filter_iff _
                    (λ r, May2022.Region r = region_name ∧
                          May2022.Property_Type r = property_type ∧
                          May2022.Rooms r = rooms)) by tauto.
    - apply get_region_data_None in Hsel.
      rewrite filter_none; [done |].
      intros r Hr [Hreg _]. destruct Hsel.
      rewrite <- Hreg. by apply list_elem_of_fmap_2. }
  rewrite Hresult. split; [| split].
  - by destruct matching.
  - by intros first rest ->.
  - intros Hwf labels series. destruct matching as [|first rest] eqn:Hm; [done |].
    intros [= <- <-].
    assert (first ∈ matching) as [_ Hfirst]%list_elem_of_filter
      by (rewrite Hm; left).
    unfold May2022.wf in Hwf. rewrite Forall_forall in Hwf.
    symmetry. by apply Hwf.
Qed.

Lemma time_series_is_first_match_witness :
  May2022.get_time_series_data Samples.unsorted_rooms "North" "Flat" 3
  = Some (["m1"], [1]) ∧
  May2022.get_time_series_data Samples.unsorted_rooms "North" "Flat" 4 = None.
Proof.
  destruct (time_series_is_first_match Samples.unsorted_rooms "North" "Flat" 3)
    as (_ & Hfirst & _).
  destruct (time_series_is_first_match Samples.unsorted_rooms "North" "Flat" 4)
    as (Hnone & _ & _).
  split; [| by apply Hnone].
  exact (Hfirst (May2022.mkRow "N" "North" "Flat" 3 [1])
                [May2022.mkRow "N" "North" "Flat" 3 [4]] eq_refl).
Defined.

(** X3.  The choices the menu lists always lead to data: a listed region
    has at least one property type, a listed property type of it has at
    least one room size, and a listed room size of that has a time series,
    with the month labels of the table. *)
Theorem listed_choices_have_data (df : May2022.Table)
    (region_name property_type : string) (rooms : Z) :
  region_name ∈ May2022.get_available_regions df →
  May2022.get_property_types_in_region df region_name ≠ [] ∧
  (property_type ∈ May2022.get_property_types_in_region df region_name →
   May2022.get_room_sizes_for_property df region_name property_type ≠ [] ∧
   (rooms ∈ May2022.get_room_sizes_for_property df region_name property_type →
    ∃ series,
      May2022.get_time_series_data df region_name property_type rooms
      = Some (May2022.month_labels df, series))).
Proof.
  intros (r & -> & Hr)%elem_of_unique%list_elem_of_fmap. split.
  { intros Hnil.
    assert (May2022.Property_Type r
            ∈ May2022.get_property_types_in_region df (May2022.Region r)) as Ht
      by (apply elem_of_property_types; by exists r).
    rewrite Hnil in Ht. inversion Ht. }
  intros (r' & Hr' & Hreg & <-)%elem_of_property_types. split.
  { intros Hnil.
    assert (May2022.Rooms r'
            ∈ May2022.get_room_sizes_for_property df (May2022.Region r)
                (May2022.Property_Type r')) as Hn
      by (apply elem_of_room_sizes; by exists r').
    rewrite Hnil in Hn. inversion Hn. }
  intros (r'' & Hr'' & Hreg'' & Htype & <-)%elem_of_room_sizes.
  unfold May2022.get_time_series_data, May2022.get_region_data.
  rewrite decide_True by (by apply list_elem_of_fmap_2).
  destruct (filter _ (filter _ (May2022.rows df))) as [|first rest] eqn:Hsel.
  - apply (filter_nil_not_elem_of _ _ r'') in Hsel; [| done].
    destruct Hsel. by apply list_elem_of_filter.
  - by eexists.
Qed.

Lemma listed_choices_have_data_witness :
  ∃ series,
    May2022.get_time_series_data Samples.unsorted_rooms "North" "Flat" 2
    = Some (["m1"], series).
Proof.
  destruct (listed_choices_have_data Samples.unsorted_rooms "North" "Flat" 2)
    as [_ H]; [compute_done |].
  destruct H as [_ H]; [compute_done |].
  apply H. compute_done.
Defined.

(** ** Groups of a frame *)

Section groups.
Context {Row : Type} (key : Row → string).

Lemma filter_all (P : Row → Prop) `{!∀ x, Decision (P x)} (l : list Row) :
  (∀ x, x ∈ l → P x) → filter P l = l.
Proof.
  induction l as [|x l IH]; intros Hall; [done |].
  rewrite filter_cons_True by (apply Hall; left).
  f_equal. apply IH. intros y Hy. apply Hall. by right.
Qed.

Lemma length_filter_cons_key (k : string) (ks : list string) (l : list Row) :
  k ∉ ks →
  length (filter (λ r, key r ∈ k :: ks) l)
  = (length (filter (λ r, key r = k) l)
     + length (filter (λ r, key r ∈ ks) l))%nat.
Proof.
  intros Hk. induction l as [|x l IH]; [done |].
  rewrite !filter_cons. destruct (decide (key x = k)) as [Hx|Hx].
  - rewrite decide_True by (rewrite Hx; left).
    rewrite decide_False by (by rewrite Hx). simpl. by rewrite IH.
  - destruct (decide (key x ∈ ks)) as [Hin|Hin].
    + rewrite decide_True by (by right). simpl. rewrite IH. lia.
    + rewrite decide_False; [done |].
      by intros [?|?]%elem_of_cons.
Qed.

(** The groups of the keys [ks] share out the rows whose key is in [ks]. *)
Lemma length_groups (ks : list string) (l : list Row) :
  NoDup ks →
  sum_list_with (λ k, length (filter (λ r, key r = k) l)) ks
  = length (filter (λ r, key r ∈ ks) l).
Proof.
  induction 1 as [|k ks Hk _ IH]; simpl.
  - by rewrite filter_none by (intros ? _ H; inversion H).
  - by rewrite IH, length_filter_cons_key.
Qed.

Lemma length_groups_unique (l : list Row) :
  sum_list_with (λ k, length (filter (λ r, key r = k) l)) (unique (key <$> l))
  = length l.
Proof.
  rewrite length_groups by apply NoDup_unique.
  rewrite filter_all; [done |].
  intros r Hr. by apply elem_of_unique, list_elem_of_fmap_2.
Qed.
End groups.

(** ** may2022.py: the region summary *)

Lemma bind_Ok {A B} (a : A) (k : A → outcome B) : (Ok a ≫= k) = k a.
Proof. reflexivity. Qed.








(** ** may2023.py: periods *)

Lemma py_slice_whole {A} (a : list A) (stop : Z) :
  (Z.of_nat (length a) ≤ stop)%Z → py_slice a 0 stop = a.
Proof.
  intros Hstop. unfold py_slice. cbv zeta.
  assert ((stop <? 0)%Z = false) as -> by (apply Z.ltb_ge; lia).
  change (0 <? 0)%Z with false. cbv iota.
  rewrite (Z.min_l 0), (Z.min_r stop) by lia. rewrite Z.sub_0_r, Nat2Z.id.
  simpl. by rewrite firstn_all.
Qed.

Lemma py_slice_empty {A} (a : list A) (start_idx end_idx : Z) :
  (0 ≤ start_idx)%Z → (-1 ≤ end_idx < start_idx)%Z →
  py_slice a start_idx (end_idx + 1) = [].
Proof.
  intros Hstart Hend. unfold py_slice. cbv zeta.
  assert ((start_idx <? 0)%Z = false) as -> by (apply Z.ltb_ge; lia).
  assert ((end_idx + 1 <? 0)%Z = false) as -> by (apply Z.ltb_ge; lia).
  replace (Z.to_nat (Z.min (end_idx + 1) (Z.of_nat (length a))
                     - Z.min start_idx (Z.of_nat (length a)))) with 0%nat by lia.
  done.
Qed.

Lemma period_value_whole (m : May2023.metric) (x : Q) (t : list Q) :
  ∃ st, stats_dict (x :: t) = Ok st ∧
        May2023.period_value m (x :: t) = Ok (May2023.stats_get st m).
Proof.
  destruct (stats_dict_cons x t) as [v ->]. eexists. split; [done |].
  by destruct m.
Qed.

Lemma whole_period_loop (df : May2023.Table) (end_idx : Z)
    (service : option string) (m : May2023.metric) (menu_items : list string)
    (best_item : option string) (best_value : Q) :
  May2023.wf df → May2023.date_labels df ≠ [] →
  (Z.of_nat (length (May2023.date_labels df)) - 1 ≤ end_idx)%Z →
  May2023.best_period_loop df 0 end_idx service m menu_items best_item best_value
  = May2023.highest_item_loop df service m menu_items best_item best_value.
Proof.
  intros Hwf Hlabels Hend. revert best_item best_value.
  induction menu_items as [|item rest IH]; intros best_item best_value; [done |].
  cbn [May2023.best_period_loop May2023.highest_item_loop].
  unfold May2023.calculate_menu_stats.
  destruct (May2023.get_sales_time_series df item service)
    as [[labels series]|] eqn:Hseries; [| by rewrite bind_Ok].
  pose proof (series_nonempty _ _ _ _ _ Hwf Hseries) as Hlen.
  rewrite py_slice_whole by lia.
  destruct series as [|x t]; [by destruct (May2023.date_labels df) |].
  destruct (period_value_whole m x t) as (st & -> & ->).
  rewrite !bind_Ok. by destruct (Qlt_le_dec _ _).
Qed.

(** X5.  Over a period that starts at the first date and ends at or after
    the last one, [find_best_performer_in_period] returns what
    [find_highest_performing_item] returns for the same service and
    metric. *)
Theorem whole_period_is_overall (df : May2023.Table) (end_idx : Z)
    (service : option string) (m : May2023.metric) :
  May2023.wf df → May2023.date_labels df ≠ [] →
  (Z.of_nat (length (May2023.date_labels df)) - 1 ≤ end_idx)%Z →
  May2023.find_best_performer_in_period df 0 end_idx service m
  = May2023.find_highest_performing_item df service m.
Proof. intros. by apply whole_period_loop. Qed.

Lemma whole_period_is_overall_witness :
  May2023.find_best_performer_in_period Samples.ribs 0 1 (Some "Dinner")
    May2023.Average
  = May2023.find_highest_performing_item Samples.ribs (Some "Dinner")
      May2023.Average.
Proof.
  apply whole_period_is_overall;
    [unfold May2023.wf; simpl; repeat constructor | discriminate | simpl; lia].
Defined.

Lemma empty_period_total_loop (df : May2023.Table) (start_idx end_idx : Z)
    (service : option string) (menu_items : list string)
    (best_item : option string) :
  (0 ≤ start_idx)%Z → (-1 ≤ end_idx < start_idx)%Z →
  May2023.best_period_loop df start_idx end_idx service May2023.Total
    menu_items best_item 0
  = Ok (best_item, 0).
Proof.
  intros Hstart Hend. induction menu_items as [|item rest IH]; [done |].
  cbn [May2023.best_period_loop].
  destruct (May2023.get_sales_time_series df item service) as [[labels series]|];
    [| done].
  by rewrite py_slice_empty by done.
Qed.

(** X6.  When the end index lies before the start index (as with an end
    index of -1), every period is empty: with the metric 'total' the search
    returns the first menu item that has a time series, with value 0, and
    [(None, -1)] when no item has one; with the metric 'max' it raises
    [ValueError] as soon as an item has a time series. *)
Theorem empty_period_result (df : May2023.Table) (start_idx end_idx : Z)
    (service : option string) :
  (0 ≤ start_idx)%Z → (-1 ≤ end_idx < start_idx)%Z →
  let has_series item :=
    is_Some (May2023.get_sales_time_series df item service) in
  let first_item :=
    list_find has_series (May2023.get_available_menu_items df) in
  May2023.find_best_performer_in_period df start_idx end_idx service May2023.Total
  = Ok (match first_item with
        | Some (_, item) => (Some item, 0)
        | None => (None, -1)
        end) ∧
  (is_Some first_item →
   May2023.find_best_performer_in_period df start_idx end_idx service May2023.Max
   = Raise ValueError).
Proof.
  intros Hstart Hend has_series first_item. subst first_item.
  unfold May2023.find_best_performer_in_period.
  generalize (May2023.get_available_menu_items df). intros menu_items.
  induction menu_items as [|item rest [IHtotal IHmax]].
  { split; [done | by intros [? ?]]. }
  cbn [May2023.best_period_loop list_find]. subst has_series. cbv beta in *.
  destruct (May2023.get_sales_time_series df item service)
    as [[labels series]|] eqn:Hseries.
  - rewrite decide_True by done. rewrite py_slice_empty by done. split; [| done].
    cbn. by apply empty_period_total_loop.
  - rewrite decide_False by (by intros [? ?]). split.
    + rewrite IHtotal. by destruct (list_find _ rest) as [[? ?]|].
    + intros Hsome. apply IHmax.
      by destruct (list_find _ rest) as [[? ?]|].
Qed.

Lemma empty_period_result_witness :
  May2023.find_best_performer_in_period Samples.ribs 0 (-1) None May2023.Total
  = Ok (Some "Ribs", 0) ∧
  May2023.find_best_performer_in_period Samples.ribs 0 (-1) None May2023.Max
  = Raise ValueError.
Proof.
  destruct (empty_period_result Samples.ribs 0 (-1) None) as [Htotal Hmax];
    [lia | lia |].
  split; [exact Htotal | apply Hmax; by eexists].
Defined.

(** ** The comparison of two totals *)





(** ** may2023.py: the summary of a menu item and the comparison plots *)

Lemma series_of_service (df : May2023.Table) (menu_item s : string) :
  is_Some (May2023.get_sales_time_series df menu_item (Some s)) ↔
  ∃ r, r ∈ May2023.rows df ∧ May2023.Menu_Item r = menu_item ∧
       May2023.Service r = s.
Proof.
  unfold May2023.get_sales_time_series, May2023.get_menu_item_data. split.
  - case_decide; [| by intros [? ?]]. case_decide; [| by intros [? ?]].
    destruct (filter _ (filter _ _)) as [|first rest] eqn:Hsel; [by intros [? ?] |].
    intros _. exists first.
    assert (first ∈ first :: rest) as Hfirst by left.
    rewrite <- Hsel in Hfirst.
    by apply list_elem_of_filter in Hfirst as [? [? ?]%list_elem_of_filter].
  - intros (r & Hr & Hitem & Hs).
    rewrite decide_True by (by eapply list_elem_of_fmap_2').
    rewrite decide_True by (by eapply list_elem_of_fmap_2'). cbv zeta.
    destruct (filter (λ r0, May2023.Service r0 = s) _)
      as [|first rest] eqn:Hsel; [| by eexists].
    assert (r ∈ filter (λ r0, May2023.Service r0 = s)
                  (filter (λ r0, May2023.Menu_Item r0 = menu_item)
                          (May2023.rows df))) as Hin
      by (by rewrite !list_elem_of_filter).
    rewrite Hsel in Hin. inversion Hin.
Qed.






Lemma enumerate_lines (df : May2023.Table) (service : option string)
    (x_numeric : list Q) (start : nat) (menu_items : list string) :
  let lines :=
    omap (λ p : nat * string,
            match May2023.get_sales_time_series df p.2 service with
            | Some (_, sales) => Some (x_numeric, sales, p.2, p.1 `mod` 10)%nat
            | None => None
            end)
         (zip (seq start (length menu_items)) menu_items) in
  (λ l, l.1.2) <$> lines
  = filter (λ item, is_Some (May2023.get_sales_time_series df item service))
           menu_items ∧
  Forall (λ l, (l.2 < 10)%nat ∧ l.1.1.1 = x_numeric ∧
               May2023.get_sales_time_series df l.1.2 service
               = Some (May2023.date_labels df, l.1.1.2)) lines.
Proof.
  revert start. induction menu_items as [|item rest IH]; intros start.
  { split; [done | constructor]. }
  destruct (IH (S start)) as [Hlabels Hall]. cbv zeta in *.
  cbn [length seq zip zip_with omap list_omap fst snd].
  rewrite filter_cons.
  destruct (May2023.get_sales_time_series df item service)
    as [[labels series]|] eqn:Hseries.
  - rewrite decide_True by done. rewrite fmap_cons. cbn [fst snd].
    split; [by rewrite Hlabels |]. constructor; [| done]. cbn [fst snd].
    split; [apply Nat.mod_upper_bound; lia |]. split; [done |].
    destruct (get_sales_time_series_Some _ _ _ _ _ Hseries) as [Hl _].
    by rewrite Hseries, Hl.
  - by rewrite decide_False by (by intros [? ?]).
Qed.

(** X8.  [plot_menu_items_comparison] raises [IndexError] on a table without
    rows.  On any other table it returns; it draws one line for each menu
    item that has a time series for the service, in order of first
    appearance, every line over the same x axis of one point per date and
    with a valid colour position, and on a well-formed table every line has
    as many values as the x axis has points. *)
Theorem menu_items_comparison_lines (df : May2023.Table)
    (service : option string) :
  (May2023.rows df = [] →
   May2023.plot_menu_items_comparison df service = Raise IndexError) ∧
  (May2023.rows df ≠ [] →
   ∃ lines,
     May2023.plot_menu_items_comparison df service = Ok lines ∧
     (λ l, l.1.2) <$> lines
     = filter (λ item, is_Some (May2023.get_sales_time_series df item service))
              (May2023.get_available_menu_items df) ∧
     Forall (λ l, (l.2 < 10)%nat ∧
                  length l.1.1.1 = length (May2023.date_labels df) ∧
                  (May2023.wf df → length l.1.1.2 = length l.1.1.1)) lines).
Proof.
  unfold May2023.plot_menu_items_comparison. split.
  - intros Hrows. unfold May2023.get_available_menu_items. by rewrite Hrows.
  - intros Hrows.
    destruct (May2023.get_available_menu_items df) as [|item rest] eqn:Hitems.
    { destruct (May2023.rows df) as [|r rows] eqn:Hr; [done |].
      assert (May2023.Menu_Item r ∈ May2023.get_available_menu_items df) as Hin.
      { apply elem_of_unique. rewrite Hr. left. }
      rewrite Hitems in Hin. inversion Hin. }
    cbv zeta. eexists. split; [done |].
    destruct (enumerate_lines df service
                (arange (length (May2023.date_labels df))) 0 (item :: rest))
      as [Hlabels Hall].
    split; [exact Hlabels |].
    eapply Forall_impl; [exact Hall |].
    intros l (Hcolour & Hx & Hseries). split; [done |].
    rewrite Hx. unfold arange. rewrite length_fmap, length_seq.
    split; [done |]. intros Hwf.
    by apply (series_nonempty _ _ _ _ _ Hwf Hseries).
Qed.

Lemma menu_items_comparison_lines_witness :
  (∃ lines,
     May2023.plot_menu_items_comparison Samples.ribs (Some "Lunch") = Ok lines ∧
     (λ l, l.1.2) <$> lines = ["Ribs"]) ∧
  May2023.plot_menu_items_comparison (May2023.mkTable ["d1"] []) None
  = Raise IndexError.
Proof.
  split.
  - destruct (menu_items_comparison_lines Samples.ribs (Some "Lunch"))
      as [_ H].
    destruct H as (lines & Hlines & Hlabels & _); [discriminate |].
    exists lines. split; [exact Hlines |]. rewrite Hlabels. reflexivity.
  - by apply (menu_items_comparison_lines (May2023.mkTable ["d1"] []) None).
Defined.

(** X9.  [plot_lunch_dinner_comparison] draws exactly when the table has a
    lunch row and a dinner row for the menu item; on a well-formed table
    the two series it draws then have one value for each point of the x
    axis. *)
Theorem lunch_dinner_plot (df : May2023.Table) (menu_item : string) :
  let has_row s :=
    ∃ r, r ∈ May2023.rows df ∧ May2023.Menu_Item r = menu_item ∧
         May2023.Service r = s in
  (is_Some (May2023.plot_lunch_dinner_comparison df menu_item) ↔
   has_row "Lunch" ∧ has_row "Dinner") ∧
  (May2023.wf df → ∀ x lunch dinner,
     May2023.plot_lunch_dinner_comparison df menu_item = Some (x, lunch, dinner) →
     length x = length (May2023.date_labels df) ∧
     length lunch = length x ∧ length dinner = length x).
Proof.
  intros has_row. subst has_row. cbv beta.
  rewrite <- !series_of_service. unfold May2023.plot_lunch_dinner_comparison.
  destruct (May2023.get_sales_time_series df menu_item (Some "Lunch"))
    as [[lunch_dates lunch_sales]|] eqn:Hlunch;
    [| split; [split; [by intros [? ?] | by intros [[? ?] _]] | done]].
  destruct (May2023.get_sales_time_series df menu_item (Some "Dinner"))
    as [[dinner_dates dinner_sales]|] eqn:Hdinner;
    [| split; [split; [by intros [? ?] | by intros [_ [? ?]]] | done]].
  split; [split; [by intros _; split; eexists | by eexists] |].
  intros Hwf x lunch dinner [= <- <- <-].
  pose proof (series_nonempty _ _ _ _ _ Hwf Hlunch) as Hl.
  pose proof (series_nonempty _ _ _ _ _ Hwf Hdinner) as Hd.
  apply get_sales_time_series_Some in Hlunch as [-> _].
  unfold arange. rewrite length_fmap, length_seq. by rewrite Hl, Hd.
Qed.

Lemma lunch_dinner_plot_witness :
  is_Some (May2023.plot_lunch_dinner_comparison Samples.ribs "Ribs") ∧
  ∀ x lunch dinner,
    May2023.plot_lunch_dinner_comparison Samples.ribs "Ribs"
    = Some (x, lunch, dinner) →
    length lunch = length x.
Proof.
  destruct (lunch_dinner_plot Samples.ribs "Ribs") as [Hsome Hlen]. split.
  - apply Hsome.
    split; [exists (May2023.mkRow "Ribs" "Lunch" [1; 2])
           | exists (May2023.mkRow "Ribs" "Dinner" [10; 20])];
      (split; [simpl; repeat constructor | split; reflexivity]).
  - intros x lunch dinner Hplot.
    destruct (Hlen ltac:(unfold May2023.wf; simpl; repeat constructor)
                _ _ _ Hplot) as (_ & H & _).
    exact H.
Defined.

(** ** may2024.py: selections *)

Lemma NoDup_week_order : NoDup May2024.week_order.
Proof. compute_done. Qed.

Lemma elem_of_available_days (df : May2024.Table) (day : string) :
  day ∈ May2024.get_available_days df ↔
  day ∈ May2024.week_order ∧ day ∈ May2024.Day <$> May2024.rows df.
Proof.
  unfold May2024.get_available_days.
  rewrite list_elem_of_filter, elem_of_unique. tauto.
Qed.

Lemma get_payment_type_data_available (df : May2024.Table) (pay_type : string) :
  pay_type ∈ May2024.get_available_payment_types df →
  May2024.get_payment_type_data df pay_type
  = Some (filter (λ r, May2024.Pay_Type r = pay_type) (May2024.rows df)).
Proof. intros H. unfold May2024.get_payment_type_data. by rewrite decide_True. Qed.

(** X10.  [get_day_data] selects the rows of a day only when the day is one
    of the seven week-day names and occurs in the Day column, and the
    selection is then not empty; for any other value, also one that does
    occur in the Day column, it answers [None].  [get_payment_type_data]
    answers the non-empty selection of rows of a payment type that occurs in
    the Pay Type column and [None] otherwise. *)
Theorem day_and_payment_selection (df : May2024.Table) (day pay_type : string) :
  (day ∈ May2024.week_order ∧ day ∈ May2024.Day <$> May2024.rows df →
   ∃ sel, May2024.get_day_data df day = Some sel ∧ sel ≠ [] ∧
          sel = filter (λ r, May2024.Day r = day) (May2024.rows df)) ∧
  (day ∉ May2024.week_order ∨ (day ∉ May2024.Day <$> May2024.rows df) →
   May2024.get_day_data df day = None) ∧
  (pay_type ∈ May2024.Pay_Type <$> May2024.rows df →
   ∃ sel, May2024.get_payment_type_data df pay_type = Some sel ∧ sel ≠ [] ∧
          sel = filter (λ r, May2024.Pay_Type r = pay_type) (May2024.rows df)) ∧
  ((pay_type ∉ May2024.Pay_Type <$> May2024.rows df) →
   May2024.get_payment_type_data df pay_type = None).
Proof.
  split; [| split; [| split]].
  - intros [Hweek Hcol]. eexists. split; [| split; [| done]].
    + apply get_day_data_available. by apply elem_of_available_days.
    + by apply filter_key_nonempty.
  - intros Hno. unfold May2024.get_day_data. rewrite decide_False; [done |].
    rewrite elem_of_available_days. tauto.
  - intros Hcol. eexists. split; [| split; [| done]].
    + apply get_payment_type_data_available. by apply elem_of_unique.
    + by apply filter_key_nonempty.
  - intros Hno. unfold May2024.get_payment_type_data.
    rewrite decide_False; [done |].
    unfold May2024.get_available_payment_types. by rewrite elem_of_unique.
Qed.

Lemma day_and_payment_selection_witness :
  ("Holiday" ∈ May2024.Day <$> May2024.rows Samples.park_holiday) ∧
  May2024.get_day_data Samples.park_holiday "Holiday" = None ∧
  (∃ sel, May2024.get_day_data Samples.park_holiday "Monday" = Some sel ∧
          sel ≠ []) ∧
  May2024.get_payment_type_data Samples.park_holiday "Cheque" = None.
Proof.
  destruct (day_and_payment_selection Samples.park_holiday "Holiday" "Cheque")
    as (_ & Hnone & _ & Hpay).
  destruct (day_and_payment_selection Samples.park_holiday "Monday" "Cash")
    as (Hsome & _).
  split; [compute_done |].
  split; [apply Hnone; left; compute_done |].
  split; [| apply Hpay; compute_done].
  destruct Hsome as (sel & Hsel & Hne & _); [split; compute_done |].
  by exists sel.
Defined.

(** ** may2024.py: statistics by payment type and by day *)

Lemma calculate_income_stats_of (income : list Q) :
  ∃ stats, May2024.calculate_income_stats (Some income) = Ok stats ∧
           stats_of income stats.
Proof.
  destruct income as [|x t]; [by exists None |].
  destruct (stats_dict_cons x t) as [v Hv].
  unfold May2024.calculate_income_stats. rewrite Hv. by eexists.
Qed.

Lemma income_of_fmap (df : May2024.Table) (source : option string) :
  May2024.source_ok df source →
  ∃ g : May2024.Row → Q, ∀ data, May2024.income_of df source data = g <$> data.
Proof.
  destruct source as [s|]; simpl; [| by eexists].
  intros Hs. unfold May2024.column. unfold May2024.get_available_sources in Hs.
  destruct (first_index_elem _ _ Hs) as [j ->]. by eexists.
Qed.

Lemma income_of_length (df : May2024.Table) (source : option string)
    (data : list May2024.Row) :
  May2024.source_ok df source →
  length (May2024.income_of df source data) = length data.
Proof.
  intros [g Hg]%income_of_fmap. by rewrite Hg, length_fmap.
Qed.

Lemma source_ok_dec (df : May2024.Table) (source : option string) :
  May2024.source_ok df source ∨ ¬ May2024.source_ok df source.
Proof.
  destruct source as [s|]; simpl; [| by left].
  destruct (decide (s ∈ May2024.get_available_sources df)); auto.
Qed.

Lemma day_entry_ok (df : May2024.Table) (source pay_type : option string)
    (day : string) :
  day ∈ May2024.get_available_days df → May2024.source_ok df source →
  May2024.day_entry df source pay_type day
  = (stats ← May2024.calculate_income_stats
               (Some (May2024.income_of df source
                        (May2024.rows_of_day df pay_type day)));
     Ok (Some (day, stats))).
Proof.
  intros Hday Hsource. unfold May2024.day_entry, May2024.rows_of_day.
  rewrite (get_day_data_available _ _ Hday), bind_Ok.
  destruct source as [s|]; simpl in Hsource; [by rewrite decide_True |]. done.
Qed.

Lemma day_entry_invalid (df : May2024.Table) (source pay_type : option string)
    (day : string) :
  day ∈ May2024.get_available_days df → ¬ May2024.source_ok df source →
  May2024.day_entry df source pay_type day = Ok None.
Proof.
  intros Hday Hsource. unfold May2024.day_entry.
  rewrite (get_day_data_available _ _ Hday), bind_Ok.
  destruct source as [s|]; simpl in Hsource; [by rewrite decide_False | done].
Qed.

Lemma payment_entry_ok (df : May2024.Table) (source : option string)
    (pay_type : string) :
  pay_type ∈ May2024.get_available_payment_types df →
  May2024.source_ok df source →
  May2024.payment_entry df source pay_type
  = (stats ← May2024.calculate_income_stats
               (Some (May2024.income_of df source
                        (filter (λ r, May2024.Pay_Type r = pay_type)
                                (May2024.rows df))));
     Ok (Some (pay_type, stats))).
Proof.
  intros Hpay Hsource. unfold May2024.payment_entry.
  rewrite (get_payment_type_data_available _ _ Hpay), bind_Ok.
  destruct source as [s|]; simpl in Hsource; [by rewrite decide_True |]. done.
Qed.

Lemma payment_entry_invalid (df : May2024.Table) (source : option string)
    (pay_type : string) :
  pay_type ∈ May2024.get_available_payment_types df →
  ¬ May2024.source_ok df source →
  May2024.payment_entry df source pay_type = Ok None.
Proof.
  intros Hpay Hsource. unfold May2024.payment_entry.
  rewrite (get_payment_type_data_available _ _ Hpay), bind_Ok.
  destruct source as [s|]; simpl in Hsource; [by rewrite decide_False | done].
Qed.

(** A loop whose every pass stores an entry. *)
Lemma all_ok_somes_Forall2 {A B} (f : A → outcome (option B))
    (R : A → B → Prop) (l : list A) :
  (∀ x, x ∈ l → ∃ y, f x = Ok (Some y) ∧ R x y) →
  ∃ ys, (entries ← all_ok (f <$> l); Ok (somes entries)) = Ok ys ∧
        Forall2 R l ys.
Proof.
  induction l as [|x l IH]; intros Hall.
  { exists []. split; [done | constructor]. }
  destruct (Hall x) as (y & Hy & HR); [left |].
  destruct IH as (ys & Hys & HF); [intros; apply Hall; by right |].
  exists (y :: ys). split; [| by constructor].
  rewrite fmap_cons. cbn [all_ok]. rewrite Hy, bind_Ok.
  destruct (all_ok (f <$> l)) as [entries|e]; [| done].
  rewrite !bind_Ok in *. injection Hys as <-. done.
Qed.

(** A loop whose every pass is skipped. *)
Lemma all_ok_nones {A B} (f : A → outcome (option B)) (l : list A) :
  (∀ x, x ∈ l → f x = Ok None) →
  (entries ← all_ok (f <$> l); Ok (somes entries)) = Ok [].
Proof.
  induction l as [|x l IH]; intros Hall; [done |].
  rewrite fmap_cons. cbn [all_ok]. rewrite (Hall x), bind_Ok by left.
  specialize (IH (λ y Hy, Hall y (list_elem_of_further _ _ _ Hy))).
  destruct (all_ok (f <$> l)) as [entries|e]; [| done].
  rewrite !bind_Ok in *. injection IH as IH. by rewrite <- IH.
Qed.

Lemma by_day_results (df : May2024.Table) (source pay_type : option string) :
  May2024.source_ok df source →
  ∃ results,
    May2024.calculate_by_day_of_week df source pay_type = Ok results ∧
    Forall2 (λ day e,
               e.1 = day ∧
               stats_of (May2024.income_of df source
                           (May2024.rows_of_day df pay_type day)) e.2)
            (May2024.get_available_days df) results.
Proof.
  intros Hsource. apply all_ok_somes_Forall2. intros day Hday.
  rewrite day_entry_ok by done.
  destruct (calculate_income_stats_of
              (May2024.income_of df source (May2024.rows_of_day df pay_type day)))
    as (stats & -> & Hstats).
  by eexists.
Qed.

Lemma by_payment_results (df : May2024.Table) (source : option string) :
  May2024.source_ok df source →
  ∃ results,
    May2024.calculate_by_payment_type df source = Ok results ∧
    Forall2 (λ pay_type e,
               e.1 = pay_type ∧
               stats_of (May2024.income_of df source
                           (filter (λ r, May2024.Pay_Type r = pay_type)
                                   (May2024.rows df))) e.2)
            (May2024.get_available_payment_types df) results.
Proof.
  intros Hsource. apply all_ok_somes_Forall2. intros pay_type Hpay.
  rewrite payment_entry_ok by done.
  destruct (calculate_income_stats_of
              (May2024.income_of df source
                 (filter (λ r, May2024.Pay_Type r = pay_type) (May2024.rows df))))
    as (stats & -> & Hstats).
  by eexists.
Qed.

Lemma np_sum_filter_cons_key {Row} (key : Row → string) (g : Row → Q)
    (k : string) (ks : list string) (l : list Row) :
  k ∉ ks →
  np_sum (g <$> filter (λ r, key r ∈ k :: ks) l)
  == np_sum (g <$> filter (λ r, key r = k) l)
     + np_sum (g <$> filter (λ r, key r ∈ ks) l).
Proof.
  intros Hk. induction l as [|x l IH]; [by vm_compute |].
  rewrite !filter_cons. destruct (decide (key x = k)) as [Hx|Hx].
  - rewrite decide_True by (rewrite Hx; left).
    rewrite decide_False by (by rewrite Hx).
    rewrite !fmap_cons. cbn [np_sum foldr]. fold (np_sum (g <$> filter (λ r, key r ∈ k :: ks) l)).
    fold (np_sum (g <$> filter (λ r, key r = k) l)).
    rewrite IH. ring.
  - destruct (decide (key x ∈ ks)) as [Hin|Hin].
    + rewrite decide_True by (by right).
      rewrite !fmap_cons. cbn [np_sum foldr].
      fold (np_sum (g <$> filter (λ r, key r ∈ k :: ks) l)).
      fold (np_sum (g <$> filter (λ r, key r ∈ ks) l)).
      rewrite IH. ring.
    + rewrite decide_False; [done |]. by intros [?|?]%elem_of_cons.
Qed.

(** The sums over the groups of the keys [ks] add up to the sum over the
    rows whose key is in [ks]. *)
Lemma np_sum_groups {Row} (key : Row → string) (g : Row → Q)
    (ks : list string) (l : list Row) :
  NoDup ks →
  np_sum ((λ k, np_sum (g <$> filter (λ r, key r = k) l)) <$> ks)
  == np_sum (g <$> filter (λ r, key r ∈ ks) l).
Proof.
  induction 1 as [|k ks Hk _ IH].
  - by rewrite filter_none by (intros ? _ H; inversion H).
  - rewrite fmap_cons. cbn [np_sum foldr].
    fold (np_sum ((λ k, np_sum (g <$> filter (λ r, key r = k) l)) <$> ks)).
    by rewrite IH, np_sum_filter_cons_key.
Qed.

Lemma results_facts (df : May2024.Table) (source : option string)
    (sel : string → list May2024.Row) (keys : list string)
    (results : list (string * option Statistics)) :
  May2024.source_ok df source →
  Forall2 (λ k e, e.1 = k ∧ stats_of (May2024.income_of df source (sel k)) e.2)
          keys results →
  fst <$> results = keys ∧
  sum_list_with (λ e, from_option count 0%nat e.2) results
  = sum_list_with (λ k, length (sel k)) keys ∧
  May2024.total_or_zero <$> results
  = (λ k, np_sum (May2024.income_of df source (sel k))) <$> keys ∧
  Forall (λ e, stats_of (May2024.income_of df source (sel e.1)) e.2) results.
Proof.
  intros Hsource. induction 1 as [|k [k' stats] keys results [Hk Hstats] _ IH].
  { repeat split. constructor. }
  destruct IH as (Hkeys & Hcount & Htotal & Hall). simpl in Hk, Hstats. subst k'.
  rewrite !fmap_cons. cbn [sum_list_with fst snd]. rewrite Hkeys, Hcount, Htotal.
  split; [done |]. split; [| split; [| by constructor]].
  - f_equal. destruct stats as [st|]; simpl in *.
    + destruct Hstats as (_ & _ & ->). by apply income_of_length.
    + rewrite <- (income_of_length df source (sel k)) by done. by rewrite Hstats.
  - f_equal. unfold May2024.total_or_zero. destruct stats as [st|]; simpl in *.
    + by destruct Hstats as (_ & -> & _).
    + by rewrite Hstats.
Qed.

(** X11.  [calculate_by_payment_type] always returns.  For an unknown source
    the result is empty.  Otherwise it holds one entry per payment type, in
    order of first appearance, each with statistics present; the count of
    an entry is the number of rows of that payment type, the counts add up
    to the number of rows of the table, and the totals add up to the total
    income over all rows. *)
Theorem payment_breakdown (df : May2024.Table) (source : option string) :
  (¬ May2024.source_ok df source →
   May2024.calculate_by_payment_type df source = Ok []) ∧
  (May2024.source_ok df source →
   ∃ results,
     May2024.calculate_by_payment_type df source = Ok results ∧
     fst <$> results = May2024.get_available_payment_types df ∧
     Forall (λ e, ∃ st,
                e.2 = Some st ∧ (0 < count st)%nat ∧
                count st
                = length (filter (λ r, May2024.Pay_Type r = e.1) (May2024.rows df)) ∧
                total st
                = np_sum (May2024.income_of df source
                            (filter (λ r, May2024.Pay_Type r = e.1)
                                    (May2024.rows df)))) results ∧
     sum_list_with (λ e, from_option count 0%nat e.2) results
     = length (May2024.rows df) ∧
     np_sum (May2024.total_or_zero <$> results)
     == np_sum (May2024.income_of df source (May2024.rows df))).
Proof.
  split.
  { intros Hsource. apply all_ok_nones. intros pay_type Hpay.
    by apply payment_entry_invalid. }
  intros Hsource.
  destruct (by_payment_results df source Hsource) as (results & Hresults & HF).
  exists results. split; [done |].
  destruct (results_facts df source
              (λ p, filter (λ r, May2024.Pay_Type r = p) (May2024.rows df))
              _ _ Hsource HF) as (Hkeys & Hcount & Htotal & Hall).
  split; [done |]. split; [| split].
  - assert (∀ e, e ∈ results → e.1 ∈ May2024.get_available_payment_types df)
      as Hin.
    { intros e He. rewrite <- Hkeys. by apply list_elem_of_fmap_2. }
    apply Forall_forall. intros e He.
    rewrite Forall_forall in Hall. specialize (Hall e He).
    specialize (Hin e He). apply elem_of_unique, filter_key_nonempty in Hin.
    pose proof (income_of_length df source
                  (filter (λ r, May2024.Pay_Type r = e.1) (May2024.rows df))
                  Hsource) as Hlen.
    destruct e.2 as [st|]; simpl in Hall.
    + destruct Hall as (Hne & Htot & Hcnt). exists st.
      split; [done |]. rewrite Hcnt, Hlen. split; [| done].
      destruct (filter _ (May2024.rows df)); [done | simpl; lia].
    + rewrite Hall in Hlen. by destruct (filter _ (May2024.rows df)).
  - rewrite Hcount. apply length_groups_unique.
  - rewrite Htotal. destruct (income_of_fmap df source Hsource) as [g Hg].
    rewrite (Hg (May2024.rows df)).
    rewrite (list_fmap_ext _
               (λ k, np_sum (g <$> filter (λ r, May2024.Pay_Type r = k)
                                          (May2024.rows df))))
      by (intros; by rewrite Hg).
    unfold May2024.get_available_payment_types.
    rewrite np_sum_groups by apply NoDup_unique.
    rewrite filter_all; [done |].
    intros r Hr. by apply elem_of_unique, list_elem_of_fmap_2.
Qed.

Lemma payment_breakdown_witness :
  May2024.calculate_by_payment_type Samples.park (Some "Parking") = Ok [] ∧
  ∃ results,
    May2024.calculate_by_payment_type Samples.park (Some "Tickets") = Ok results ∧
    fst <$> results = ["Cash"; "Card"] ∧
    np_sum (May2024.total_or_zero <$> results) == 100.
Proof.
  destruct (payment_breakdown Samples.park (Some "Parking")) as [Hbad _].
  destruct (payment_breakdown Samples.park (Some "Tickets")) as [_ Hgood].
  split; [apply Hbad; simpl; compute_done |].
  destruct Hgood as (results & Hresults & Hkeys & _ & _ & Htotal);
    [simpl; compute_done |].
  exists results. split; [exact Hresults |]. split; [exact Hkeys |].
  rewrite Htotal. by vm_compute.
Defined.

Lemma filter_ext_in {A} (P Q : A → Prop) `{!∀ x, Decision (P x)}
    `{!∀ x, Decision (Q x)} (l : list A) :
  (∀ x, x ∈ l → P x ↔ Q x) → filter P l = filter Q l.
Proof.
  induction l as [|x l IH]; intros Hext; [done |].
  rewrite !filter_cons.
  rewrite (decide_ext (P x) (Q x)) by (apply Hext; left).
  rewrite IH; [done |]. intros y Hy. apply Hext. by right.
Qed.

(** The rows of a payment type, or all rows when none is given. *)
Lemma rows_of_day_alt (df : May2024.Table) (pay_type : option string)
    (day : string) :
  May2024.rows_of_day df pay_type day
  = filter (λ r, May2024.Day r = day)
           (match pay_type with
            | Some p => filter (λ r, May2024.Pay_Type r = p) (May2024.rows df)
            | None => May2024.rows df
            end).
Proof.
  unfold May2024.rows_of_day. destruct pay_type as [p|]; [| done].
  cbv zeta. rewrite !list_filter_filter. apply list_filter_iff. tauto.
Qed.

Lemma day_breakdown_invalid (df : May2024.Table)
    (source pay_type : option string) :
  ¬ May2024.source_ok df source →
  May2024.calculate_by_day_of_week df source pay_type = Ok [].
Proof.
  intros Hsource. apply all_ok_nones. intros day Hday.
  by apply day_entry_invalid.
Qed.

Lemma payment_breakdown_invalid (df : May2024.Table) (source : option string) :
  ¬ May2024.source_ok df source →
  May2024.calculate_by_payment_type df source = Ok [].
Proof.
  intros Hsource. apply all_ok_nones. intros pay_type Hpay.
  by apply payment_entry_invalid.
Qed.

(** X12.  [calculate_by_day_of_week] always returns.  For an unknown source
    the result is empty.  Otherwise it holds one entry per available day, in
    week order; the statistics of a day are absent exactly when no row of
    that day has the payment type, and otherwise count those rows and total
    their income.  The counts add up to the number of rows (of the payment
    type) whose day label is one of the seven week-day names: rows with any
    other day label are counted under no day. *)
Theorem day_breakdown (df : May2024.Table) (source pay_type : option string) :
  let pay_rows :=
    match pay_type with
    | Some p => filter (λ r, May2024.Pay_Type r = p) (May2024.rows df)
    | None => May2024.rows df
    end in
  (¬ May2024.source_ok df source →
   May2024.calculate_by_day_of_week df source pay_type = Ok []) ∧
  (May2024.source_ok df source →
   ∃ results,
     May2024.calculate_by_day_of_week df source pay_type = Ok results ∧
     fst <$> results = May2024.get_available_days df ∧
     Forall (λ e, stats_of (May2024.income_of df source
                              (filter (λ r, May2024.Day r = e.1) pay_rows)) e.2)
            results ∧
     sum_list_with (λ e, from_option count 0%nat e.2) results
     = length (filter (λ r, May2024.Day r ∈ May2024.week_order) pay_rows)).
Proof.
  intros pay_rows. split.
  { intros Hsource. apply all_ok_nones. intros day Hday.
    by apply day_entry_invalid. }
  intros Hsource.
  destruct (by_day_results df source pay_type Hsource) as (results & Hresults & HF).
  exists results. split; [done |].
  assert (Forall2 (λ k e,
                     e.1 = k ∧
                     stats_of (May2024.income_of df source
                                 (filter (λ r, May2024.Day r = k) pay_rows)) e.2)
                  (May2024.get_available_days df) results) as HF'.
  { eapply Forall2_impl; [exact HF |]. intros day e [? He].
    split; [done |]. by rewrite rows_of_day_alt in He. }
  destruct (results_facts df source
              (λ day, filter (λ r, May2024.Day r = day) pay_rows)
              _ _ Hsource HF') as (Hkeys & Hcount & _ & Hall).
  split; [done |]. split; [done |].
  - rewrite Hcount.
    rewrite length_groups
      by (apply (sublist_NoDup _ May2024.week_order);
          [apply NoDup_week_order | apply sublist_filter]).
    f_equal. apply filter_ext_in. intros r Hr.
    rewrite elem_of_available_days. split; [tauto |]. intros Hweek.
    split; [done |]. apply list_elem_of_fmap_2.
    subst pay_rows. destruct pay_type; [| done].
    by apply list_elem_of_filter in Hr as [_ ?].
Qed.

Lemma day_breakdown_witness :
  May2024.calculate_by_day_of_week Samples.park_holiday (Some "Parking") None
  = Ok [] ∧
  ∃ results,
    May2024.calculate_by_day_of_week Samples.park_holiday None None = Ok results ∧
    fst <$> results = ["Monday"] ∧
    sum_list_with (λ e, from_option count 0%nat e.2) results = 2%nat ∧
    length (May2024.rows Samples.park_holiday) = 3%nat.
Proof.
  destruct (day_breakdown Samples.park_holiday (Some "Parking") None)
    as [Hbad _].
  destruct (day_breakdown Samples.park_holiday None None) as [_ Hgood].
  split; [apply Hbad; simpl; compute_done |].
  destruct Hgood as (results & Hresults & Hkeys & _ & Hcount); [exact I |].
  exists results. split; [exact Hresults |]. split; [exact Hkeys |].
  split; [| reflexivity]. rewrite Hcount. reflexivity.
Defined.

(** ** Python's [max] and [min] with a key *)

Lemma max_from_spec {A} (key : A → Q) (best : A) (items : list A) :
  max_from key best items ∈ best :: items ∧
  ∀ x, x ∈ best :: items → key x <= key (max_from key best items).
Proof.
  revert best. induction items as [|y rest IH]; intros best.
  { split; [left |]. intros x [->|Hx]%elem_of_cons; [apply Qle_refl |].
    inversion Hx. }
  cbn [max_from]. destruct (Qlt_le_dec (key best) (key y)) as [Hlt|Hle].
  - destruct (IH y) as [Hin Hmax]. split; [by right |].
    intros x [->|Hx]%elem_of_cons; [| by apply Hmax].
    eapply Qle_trans; [by apply Qlt_le_weak |]. apply Hmax. left.
  - destruct (IH best) as [Hin Hmax]. split.
    + apply elem_of_cons in Hin as [->|Hin]; [left | by do 2 right].
    + intros x [->|[->|Hx]%elem_of_cons]%elem_of_cons.
      * apply Hmax. left.
      * eapply Qle_trans; [exact Hle |]. apply Hmax. left.
      * apply Hmax. by right.
Qed.

Lemma min_from_spec {A} (key : A → Q) (best : A) (items : list A) :
  min_from key best items ∈ best :: items ∧
  ∀ x, x ∈ best :: items → key (min_from key best items) <= key x.
Proof.
  revert best. induction items as [|y rest IH]; intros best.
  { split; [left |]. intros x [->|Hx]%elem_of_cons; [apply Qle_refl |].
    inversion Hx. }
  cbn [min_from]. destruct (Qlt_le_dec (key y) (key best)) as [Hlt|Hle].
  - destruct (IH y) as [Hin Hmin]. split; [by right |].
    intros x [->|Hx]%elem_of_cons; [| by apply Hmin].
    eapply Qle_trans; [| by apply Qlt_le_weak]. apply Hmin. left.
  - destruct (IH best) as [Hin Hmin]. split.
    + apply elem_of_cons in Hin as [->|Hin]; [left | by do 2 right].
    + intros x [->|[->|Hx]%elem_of_cons]%elem_of_cons.
      * apply Hmin. left.
      * eapply Qle_trans; [| exact Hle]. apply Hmin. left.
      * apply Hmin. by right.
Qed.

Lemma Forall2_elem_of_r {A B} (R : A → B → Prop) (l : list A) (k : list B)
    (y : B) :
  Forall2 R l k → y ∈ k → ∃ x, x ∈ l ∧ R x y.
Proof.
  intros HF [i Hi]%list_elem_of_lookup.
  destruct (Forall2_lookup_r _ _ _ _ _ HF Hi) as (x & Hx & HR).
  exists x. split; [by eapply list_elem_of_lookup_2 | done].
Qed.

Lemma Forall2_elem_of_l {A B} (R : A → B → Prop) (l : list A) (k : list B)
    (x : A) :
  Forall2 R l k → x ∈ l → ∃ y, y ∈ k ∧ R x y.
Proof.
  intros HF [i Hi]%list_elem_of_lookup.
  destruct (Forall2_lookup_l _ _ _ _ _ HF Hi) as (y & Hy & HR).
  exists y. split; [by eapply list_elem_of_lookup_2 | done].
Qed.

(** X13.  The summary of [display_day_of_week_analysis]: with an unknown
    source, or when no week day occurs in the table, it raises [ValueError]
    ([max] of nothing); when no available day has a row of the payment
    type it raises [TypeError] (the total of absent statistics); when every
    available day has such a row, as is the case whenever no payment type
    is given, it returns a best and a worst day among the available days,
    with their totals, and every day's total lies between the two. *)
Theorem day_analysis_summary (df : May2024.Table)
    (source pay_type : option string) :
  let days := May2024.get_available_days df in
  let day_total day :=
    np_sum (May2024.income_of df source (May2024.rows_of_day df pay_type day)) in
  (¬ May2024.source_ok df source ∨ days = [] →
   May2024.display_day_of_week_analysis df source pay_type = Raise ValueError) ∧
  (May2024.source_ok df source → days ≠ [] →
   (∀ day, day ∈ days → May2024.rows_of_day df pay_type day = []) →
   May2024.display_day_of_week_analysis df source pay_type = Raise TypeError) ∧
  (May2024.source_ok df source → days ≠ [] →
   (∀ day, day ∈ days → May2024.rows_of_day df pay_type day ≠ []) →
   ∃ best worst,
     May2024.display_day_of_week_analysis df source pay_type
     = Ok (best, day_total best, (worst, day_total worst)) ∧
     best ∈ days ∧ worst ∈ days ∧
     ∀ day, day ∈ days →
            day_total worst <= day_total day ∧ day_total day <= day_total best) ∧
  (pay_type = None →
   ∀ day, day ∈ days → May2024.rows_of_day df pay_type day ≠ []).
Proof.
  intros days day_total. unfold May2024.display_day_of_week_analysis.
  split; [| split; [| split]].
  - intros [Hsource | Hdays].
    + by rewrite (day_breakdown_invalid df source pay_type Hsource).
    + unfold May2024.calculate_by_day_of_week. fold days. by rewrite Hdays.
  - intros Hsource Hdays Hempty.
    destruct (by_day_results df source pay_type Hsource)
      as (results & -> & HF).
    rewrite bind_Ok. fold days in HF.
    destruct results as [|e results];
      [apply Forall2_nil_inv_r in HF; by destruct Hdays |].
    cbn [py_max py_min]. rewrite !bind_Ok.
    destruct (max_from_spec May2024.total_or_zero e results) as [Hbest _].
    destruct (Forall2_elem_of_r _ _ _ _ HF Hbest) as (day & Hday & HR).
    cbv beta in HR. destruct HR as [_ Hstats].
    rewrite (Hempty day Hday) in Hstats.
    destruct ((max_from May2024.total_or_zero e results).2) as [st|];
      [| done].
    destruct Hstats as (Hne & _). destruct Hne.
    destruct source as [s|]; [apply column_nil | done].
  - intros Hsource Hdays Hrows.
    destruct (by_day_results df source pay_type Hsource)
      as (results & -> & HF).
    rewrite bind_Ok. fold days in HF.
    destruct results as [|e results];
      [apply Forall2_nil_inv_r in HF; by destruct Hdays |].
    cbn [py_max py_min]. rewrite !bind_Ok.
    destruct (max_from_spec May2024.total_or_zero e results) as [Hbest Hmax].
    destruct (min_from_spec May2024.total_or_zero e results) as [Hworst Hmin].
    set (best := max_from May2024.total_or_zero e results) in *.
    set (worst := min_from May2024.total_or_zero e results) in *.
    assert (∀ x, x ∈ e :: results →
                 x.1 ∈ days ∧ x.2 ≠ None ∧
                 May2024.total_or_zero x = day_total x.1) as Hentry.
    { intros x Hx.
      destruct (Forall2_elem_of_r _ _ _ _ HF Hx) as (day & Hday & HR).
      cbv beta in HR. destruct HR as [<- Hstats].
      split; [done |]. unfold May2024.total_or_zero.
      destruct x.2 as [st|]; simpl in *.
      - by destruct Hstats as (_ & -> & _).
      - pose proof (income_of_length df source
                      (May2024.rows_of_day df pay_type x.1) Hsource) as Hlen.
        rewrite Hstats in Hlen. specialize (Hrows _ Hday).
        by destruct (May2024.rows_of_day df pay_type x.1). }
    destruct (Hentry best Hbest) as (Hb1 & Hb2 & Hb3).
    destruct (Hentry worst Hworst) as (Hw1 & Hw2 & Hw3).
    exists best.1, worst.1. unfold May2024.total_or_zero in Hb3, Hw3.
    destruct best.2 as [bst|] eqn:Hbst; [| done].
    destruct worst.2 as [wst|] eqn:Hwst; [| done].
    cbn [May2024.total_of]. rewrite !bind_Ok, Hb3, Hw3.
    split; [done |]. split; [done |]. split; [done |].
    intros day Hday.
    destruct (Forall2_elem_of_l _ _ _ _ HF Hday) as (x & Hx & HR).
    cbv beta in HR. destruct HR as [Hx1 _].
    destruct (Hentry x Hx) as (_ & _ & Hx3). rewrite Hx1 in Hx3.
    rewrite <- Hx3, <- Hb3, <- Hw3.
    replace (total bst) with (May2024.total_or_zero best)
      by (unfold May2024.total_or_zero; by rewrite Hbst).
    replace (total wst) with (May2024.total_or_zero worst)
      by (unfold May2024.total_or_zero; by rewrite Hwst).
    split; [by apply Hmin | by apply Hmax].
  - intros -> day [_ Hday]%elem_of_available_days.
    by apply filter_key_nonempty.
Qed.

Lemma day_analysis_summary_witness :
  May2024.display_day_of_week_analysis Samples.park (Some "Parking") None
  = Raise ValueError ∧
  May2024.display_day_of_week_analysis Samples.park None (Some "Cheque")
  = Raise TypeError ∧
  ∃ best worst total_best total_worst,
    May2024.display_day_of_week_analysis Samples.park None None
    = Ok (best, total_best, (worst, total_worst)) ∧
    total_worst <= total_best.
Proof.
  destruct (day_analysis_summary Samples.park (Some "Parking") None)
    as (Hvalue & _).
  destruct (day_analysis_summary Samples.park None (Some "Cheque"))
    as (_ & Htype & _).
  destruct (day_analysis_summary Samples.park None None)
    as (_ & _ & Hsummary & Hrows).
  split; [apply Hvalue; left; simpl; compute_done |].
  split.
  { apply Htype; [exact I | discriminate |].
    intros day Hday.
    change (May2024.get_available_days Samples.park)
      with ["Monday"; "Friday"; "Sunday"] in Hday.
    repeat (apply elem_of_cons in Hday as [->|Hday]; [reflexivity |]).
    inversion Hday. }
  destruct Hsummary as (best & worst & Hresult & Hbest & _ & Hbounds);
    [exact I | discriminate | by apply Hrows |].
  eexists best, worst, _, _. split; [exact Hresult |].
  destruct (Hbounds best Hbest) as [H _]. exact H.
Defined.

(** ** may2024.py: the bar charts *)



Lemma all_ok_total_present (results : list (string * option Statistics)) :
  Forall (λ e, is_Some e.2) results →
  all_ok ((λ e, May2024.total_of e.2) <$> results)
  = Ok (May2024.total_or_zero <$> results).
Proof.
  induction 1 as [|[k stats] results [st Hst] _ IH]; [done |].
  simpl in Hst. subst stats. rewrite !fmap_cons. cbn [all_ok].
  by rewrite IH.
Qed.







Lemma payment_entries_present (df : May2024.Table) (source : option string)
    (results : list (string * option Statistics)) :
  May2024.source_ok df source →
  Forall2 (λ pay_type e,
             e.1 = pay_type ∧
             stats_of (May2024.income_of df source
                         (filter (λ r, May2024.Pay_Type r = pay_type)
                                 (May2024.rows df))) e.2)
          (May2024.get_available_payment_types df) results →
  Forall (λ e, is_Some e.2) results.
Proof.
  intros Hsource HF. apply Forall_forall. intros e He.
  destruct (Forall2_elem_of_r _ _ _ _ HF He) as (pay_type & Hpay & HR).
  cbv beta in HR. destruct HR as [_ Hstats].
  destruct e.2 as [st|]; [by eexists |]. unfold stats_of in Hstats.
  apply elem_of_unique, filter_key_nonempty in Hpay.
  pose proof (income_of_length df source
                (filter (λ r, May2024.Pay_Type r = pay_type) (May2024.rows df))
                Hsource) as Hlen.
  rewrite Hstats in Hlen. by destruct (filter _ (May2024.rows df)).
Qed.

(** X15.  [plot_payment_type_comparison] never raises: for an unknown source
    it hands the bar chart no bars, and otherwise one bar per payment type,
    in order of first appearance, whose height is the total income of the
    rows of that payment type. *)
Theorem payment_comparison_bars (df : May2024.Table) (source : option string) :
  let pay_total pay_type :=
    np_sum (May2024.income_of df source
              (filter (λ r, May2024.Pay_Type r = pay_type) (May2024.rows df))) in
  (¬ May2024.source_ok df source →
   May2024.plot_payment_type_comparison df source = Ok ([], [])) ∧
  (May2024.source_ok df source →
   May2024.plot_payment_type_comparison df source
   = Ok (May2024.get_available_payment_types df,
         pay_total <$> May2024.get_available_payment_types df)).
Proof.
  intros pay_total. unfold May2024.plot_payment_type_comparison. split.
  - intros Hsource. by rewrite payment_breakdown_invalid.
  - intros Hsource.
    destruct (by_payment_results df source Hsource) as (results & -> & HF).
    destruct (results_facts df source
                (λ p, filter (λ r, May2024.Pay_Type r = p) (May2024.rows df))
                _ _ Hsource HF) as (Hkeys & _ & Htotal & _).
    rewrite bind_Ok. cbv zeta.
    rewrite all_ok_total_present by (by eapply payment_entries_present).
    by rewrite bind_Ok, Hkeys, Htotal.
Qed.

Lemma payment_comparison_bars_witness :
  May2024.plot_payment_type_comparison Samples.park (Some "Parking")
  = Ok ([], []) ∧
  May2024.plot_payment_type_comparison Samples.park (Some "Tickets")
  = Ok (["Cash"; "Card"], [10 + (40 + 0); 20 + (30 + 0)]).
Proof.
  destruct (payment_comparison_bars Samples.park (Some "Parking")) as [Hbad _].
  destruct (payment_comparison_bars Samples.park (Some "Tickets")) as [_ Hgood].
  split; [apply Hbad; simpl; compute_done | apply Hgood; simpl; compute_done].
Defined.




(** ** may2024.py: the trend plots *)

Lemma column_length (df : May2024.Table) (source : string)
    (data : list May2024.Row) :
  source ∈ May2024.get_available_sources df →
  length (May2024.column df source data) = length data.
Proof. intros Hs. by apply (income_of_length df (Some source)). Qed.

Lemma source_lines (df : May2024.Table) (data : list May2024.Row)
    (start : nat) (names : list string) :
  (∀ s, s ∈ names → s ∈ May2024.get_available_sources df) →
  let lines :=
    (λ p : nat * string,
       (arange (length data), May2024.column df p.2 data, p.2, p.1 `mod` 4)%nat)
    <$> zip (seq start (length names)) names in
  (λ l, l.1.2) <$> lines = names ∧
  Forall (λ l, length l.1.1.1 = length data ∧ length l.1.1.2 = length data ∧
               (l.2 < 4)%nat) lines.
Proof.
  revert start. induction names as [|s names IH]; intros start Hnames.
  { split; [done | constructor]. }
  destruct (IH (S start)) as [Hlabels Hall]; [intros; apply Hnames; by right |].
  cbv zeta in *. cbn [length seq zip zip_with]. rewrite !fmap_cons.
  cbn [fst snd]. split; [by rewrite Hlabels |].
  constructor; [| done]. cbn [fst snd].
  split; [unfold arange; by rewrite length_fmap, length_seq |].
  split; [apply column_length, Hnames; left |].
  apply Nat.mod_upper_bound. lia.
Qed.

(** X17.  The two trend plots do not check the payment type.  For a payment
    type that does not occur in the table, [plot_income_trend] raises
    [TypeError] when the source is known (it reports "not found" only for an
    unknown source) and [plot_income_sources_comparison] raises [TypeError]
    always.  [plot_income_sources_comparison] otherwise draws one line per
    income source, in column order, each with one value per selected row
    and a valid colour position. *)
Theorem trend_plots_payment_type
    (polyfit : list Q → list Q → outcome (list Q))
    (df : May2024.Table) (source : string) (pay_type : option string) :
  (∀ p, pay_type = Some p → (p ∉ May2024.Pay_Type <$> May2024.rows df) →
        (source ∈ May2024.get_available_sources df →
         May2024.plot_income_trend polyfit df source pay_type = Raise TypeError) ∧
        May2024.plot_income_sources_comparison df pay_type = Raise TypeError) ∧
  ((source ∉ May2024.get_available_sources df) →
   May2024.plot_income_trend polyfit df source pay_type = Ok None) ∧
  (∀ data, May2024.plot_data df pay_type = Some data →
     ∃ lines,
       May2024.plot_income_sources_comparison df pay_type = Ok lines ∧
       (λ l, l.1.2) <$> lines = May2024.get_available_sources df ∧
       Forall (λ l, length l.1.1.1 = length data ∧
                    length l.1.1.2 = length data ∧ (l.2 < 4)%nat) lines).
Proof.
  split; [| split].
  - intros p -> Hp.
    assert (May2024.plot_data df (Some p) = None) as Hdata.
    { unfold May2024.plot_data, May2024.get_payment_type_data.
      rewrite decide_False; [done |].
      unfold May2024.get_available_payment_types. by rewrite elem_of_unique. }
    unfold May2024.plot_income_trend, May2024.plot_income_sources_comparison.
    rewrite Hdata. split; [| done]. intros Hsource. by rewrite decide_True.
  - intros Hsource. unfold May2024.plot_income_trend. by rewrite decide_False.
  - intros data Hdata. unfold May2024.plot_income_sources_comparison.
    rewrite Hdata, bind_Ok. cbv zeta. eexists. split; [done |].
    by apply (source_lines df data 0 (May2024.get_available_sources df)).
Qed.

Lemma trend_plots_payment_type_witness :
  May2024.plot_income_trend (λ _ _, Ok [0; 0; 0]) Samples.park "Tickets"
    (Some "Cheque") = Raise TypeError ∧
  May2024.plot_income_trend (λ _ _, Ok [0; 0; 0]) Samples.park "Parking"
    (Some "Cheque") = Ok None ∧
  May2024.plot_income_sources_comparison Samples.park (Some "Cheque")
  = Raise TypeError ∧
  ∃ lines,
    May2024.plot_income_sources_comparison Samples.park (Some "Cash") = Ok lines ∧
    (λ l, l.1.2) <$> lines = ["Tickets"; "Gift Shop"].
Proof.
  destruct (trend_plots_payment_type (λ _ _, Ok [0; 0; 0]) Samples.park
              "Tickets" (Some "Cheque")) as (Hunknown & _ & _).
  destruct (trend_plots_payment_type (λ _ _, Ok [0; 0; 0]) Samples.park
              "Parking" (Some "Cheque")) as (_ & Hsource & _).
  destruct (trend_plots_payment_type (λ _ _, Ok [0; 0; 0]) Samples.park
              "Tickets" (Some "Cash")) as (_ & _ & Hlines).
  destruct (Hunknown "Cheque" eq_refl ltac:(compute_done)) as [Htrend Hcmp].
  split; [apply Htrend; compute_done |].
  split; [apply Hsource; compute_done |].
  split; [exact Hcmp |].
  destruct (Hlines _ eq_refl) as (lines & Hresult & Hlabels & _).
  by exists lines.
Defined.
